(** * SmartGallery: the request handlers of the photo-sharing backend

    A shallow embedding of [src/api/index.js] (the Express server with its
    routes; the serverless entry point registers no route) and the
    properties of its handlers.

    The server is a list of routes over a document store.  Every handler is
    an [async] function whose body is one [try { ... } catch (err) { 500 }];
    it is modelled as a function from the store to a response and a new
    store, the [try] block being a computation in an error monad.

    What the handlers get from outside the process is an explicit input:
    the clock, the salt bcrypt draws, the object id mongoose generates for
    a new document, and the outcome of the upload to the media host.

    Requests are handled one at a time.  The route parameters and the ids
    of the tokens are object ids in their string form; the fields of a
    request body are strings or absent.  CORS and the static files are
    left out. *)

From Stdlib Require Import ZArith String Ascii List Lia.
From stdpp Require Import base option list gmap strings sorting.

Local Open Scope Z_scope.
Local Open Scope string_scope.

(** Mongo object ids are handled by the server in their string form (route
    parameters, the [id] of a token, [toString()] comparisons). *)
Abbreviation ObjectId := string (only parsing).

(** ** Errors thrown inside a handler *)

(** A JavaScript [Error]; the handlers only ever read its [message]. *)
Record Exn := Error { message : string }.

Definition Try (A : Type) : Type := (Exn + A)%type.

Definition throw {A} (msg : string) : Try A := inl (Error msg).

Definition try_bind {A B} (m : Try A) (k : A -> Try B) : Try B :=
  match m with
  | inl e => inl e
  | inr a => k a
  end.

Notation "'do' x <- m ';' k" := (try_bind m (fun x => k))
  (at level 10, x name, m at level 100, k at level 200).

(** ** Strings *)

Definition string_eqb (a b : string) : bool := bool_decide (a = b).

(** [s.split(c)]: the pieces of [s] between the occurrences of [c]. *)
Fixpoint split_on (c : ascii) (s : string) : list string :=
  match s with
  | EmptyString => [EmptyString]
  | String a r =>
      if Ascii.eqb a c then EmptyString :: split_on c r
      else match split_on c r with
           | x :: xs => String a x :: xs
           | [] => [String a EmptyString]
           end
  end.

Fixpoint string_forallb (f : ascii -> bool) (s : string) : bool :=
  match s with
  | EmptyString => true
  | String a r => f a && string_forallb f r
  end.

Definition other_than (c : ascii) (a : ascii) : bool := negb (Ascii.eqb a c).

(** ** jsonwebtoken *)

Module Jwt.

(** The payload of the tokens of this server: [{ id, iat, exp }]. *)
Record Claims := { id : ObjectId; iat : Z; exp : Z }.

Inductive VerifyError :=
| JsonWebTokenError (msg : string)
| TokenExpiredError.

(** The [expiresIn] option, a time span as the [ms] package reads it. *)
Inductive Timespan :=
| Hours (n : Z)
| Seconds (n : Z).

Definition timespan_seconds (t : Timespan) : Z :=
  match t with
  | Hours n => n * 3600
  | Seconds n => n
  end.

(** The characters of base64url: [[a-zA-Z0-9\-_]]. *)
Definition b64url_char (c : ascii) : bool :=
  let n := N_of_ascii c in
  ((97 <=? n) && (n <=? 122) || (65 <=? n) && (n <=? 90)
   || (48 <=? n) && (n <=? 57) || (n =? 45) || (n =? 95))%N.

Definition b64url (s : string) : bool := string_forallb b64url_char s.

Definition b64url_segment (s : string) : bool :=
  negb (string_eqb s "") && b64url s.

(** base64url of [{"alg":"HS256","typ":"JWT"}]. *)
Definition header_segment : string := "eyJhbGciOiJIUzI1NiIsInR5cCI6IkpXVCJ9".

Section Lib.
(** The primitives of the library are parameters: the MAC (HMAC-SHA256,
    base64url encoded) and the codec of the payload segment (base64url
    of the JSON text). *)
Variable hmac : string -> string -> string.
Variable encode_claims : Claims -> string.
Variable decode_claims : string -> option Claims.

(** [jwt.sign(payload, secret, { expiresIn })] at clock [now]
    (seconds): [header.payload.signature]. *)
Definition sign (payload_id : ObjectId) (secret : string)
    (expiresIn : Timespan) (now : Z) : Try string :=
  if string_eqb secret "" then throw "secretOrPrivateKey must have a value"
  else
    let c := {| id := payload_id; iat := now;
                exp := now + timespan_seconds expiresIn |} in
    let input := header_segment +:+ "." +:+ encode_claims c in
    inr (input +:+ "." +:+ hmac secret input).

(** [jwt.verify(token, secret)] at clock [now] (seconds), for the tokens
    [sign] makes: the header is the HS256 one (the library also takes
    HS384 and HS512 headers with a string secret). *)
Definition verify (token secret : string) (now : Z)
    : VerifyError + Claims :=
  match split_on "." token with
  | [h; p; sg] =>
      if negb (b64url_segment h && b64url_segment p && b64url sg)
      then inl (JsonWebTokenError "invalid token")
      else if string_eqb sg ""
      then inl (JsonWebTokenError "jwt signature is required")
      else if string_eqb secret ""
      then inl (JsonWebTokenError "secret or public key must be provided")
      else if negb (string_eqb h header_segment)
      then inl (JsonWebTokenError "invalid algorithm")
      else if negb (string_eqb sg (hmac secret (h +:+ "." +:+ p)))
      then inl (JsonWebTokenError "invalid signature")
      else match decode_claims p with
           | None => inl (JsonWebTokenError "invalid token")
           | Some c =>
               if (exp c <=? now)%Z then inl TokenExpiredError else inr c
           end
  | _ => inl (JsonWebTokenError "jwt malformed")
  end.
End Lib.

End Jwt.

(** ** The documents *)

(** Modelled from the spec: the schema of [models/User] is not part of the
    sources; section 3 gives [{id, username, email (unique), password
    (hashed)}].  A field the request body lacks is absent ([None]). *)
Record User := {
  u_id : ObjectId;
  u_username : option string;
  u_email : option string;
  u_password : string
}.

(** Modelled from the spec: the comments embedded in a photo,
    [{id, text, author, createdAt}]; the author is the field [user]
    of the handlers. *)
Record Comment := {
  c_id : ObjectId;
  c_text : option string;
  c_user : ObjectId;
  c_createdAt : Z
}.

(** Modelled from the spec: the schema of [models/Photo] is not part of the
    sources; section 3 gives [{id, url, description, owner, likes,
    comments, createdAt}], the owner being the field [user] of the
    handlers.  The [_id] is the key of the document in the collection. *)
Record Photo := {
  p_url : string;
  p_description : option string;
  p_user : ObjectId;
  p_likes : list ObjectId;
  p_comments : list Comment;
  p_createdAt : Z
}.

(** The document store: the users in insertion order, the photos by
    [_id]. *)
Record Store := {
  users : list User;
  photos : gmap string Photo
}.

Definition empty_store : Store := {| users := []; photos := ∅ |}.

Definition set_users (us : list User) (s : Store) : Store :=
  {| users := us; photos := photos s |}.

Definition set_photos (ps : gmap string Photo) (s : Store) : Store :=
  {| users := users s; photos := ps |}.

(** *** mongoose operations *)

(** [User.findOne({ email })] *)
Definition findOne_email (email : option string) (us : list User)
    : option User :=
  List.find (fun u => bool_decide (u_email u = email)) us.

Definition findUser (uid : ObjectId) (us : list User) : option User :=
  List.find (fun u => string_eqb (u_id u) uid) us.

(** Modelled from the spec: the unique index on [email], which the schema
    of [models/User] would declare (section 3: email unique).  With it,
    [user.save()] of a new user fails on an [_id] or an [email] that a
    stored user has, and appends the user otherwise. *)
Definition save_user (u : User) (s : Store) : Try Store :=
  if existsb (fun v => string_eqb (u_id v) (u_id u)) (users s)
  then throw "E11000 duplicate key error: _id"
  else if existsb (fun v => bool_decide (u_email v = u_email u)) (users s)
  then throw "E11000 duplicate key error: email"
  else inr (set_users (users s ++ [u]) s).

(** [Photo.findById(id)] for an [id] that is an object id in its string
    form ([is_object_id] below): the document and its [_id].  What
    mongoose does with any other string is not modelled: a string that
    is no object id is a CastError (answered 500), and another spelling of
    an id (upper case digits) is cast to the id.  The properties that
    depend on the form of a route parameter state it. *)
Definition findById (oid : option ObjectId) (s : Store)
    : option (ObjectId * Photo) :=
  match oid with
  | None => None
  | Some pid =>
      match photos s !! pid with
      | None => None
      | Some p => Some (pid, p)
      end
  end.

(** [newPhoto.save()] of a new document. *)
Definition insert_photo (pid : ObjectId) (p : Photo) (s : Store)
    : Try Store :=
  match photos s !! pid with
  | Some _ => throw "E11000 duplicate key error: _id"
  | None => inr (set_photos (<[pid := p]> (photos s)) s)
  end.

(** [photo.save()] of a document that was found and modified. *)
Definition save_photo (pid : ObjectId) (p : Photo) (s : Store) : Store :=
  set_photos (<[pid := p]> (photos s)) s.

(** [photo.deleteOne()] *)
Definition deleteOne_photo (pid : ObjectId) (s : Store) : Store :=
  set_photos (delete pid (photos s)) s.

Definition set_description (d : option string) (p : Photo) : Photo :=
  {| p_url := p_url p; p_description := d; p_user := p_user p;
     p_likes := p_likes p; p_comments := p_comments p;
     p_createdAt := p_createdAt p |}.

Definition set_likes (l : list ObjectId) (p : Photo) : Photo :=
  {| p_url := p_url p; p_description := p_description p; p_user := p_user p;
     p_likes := l; p_comments := p_comments p;
     p_createdAt := p_createdAt p |}.

Definition set_comments (cs : list Comment) (p : Photo) : Photo :=
  {| p_url := p_url p; p_description := p_description p; p_user := p_user p;
     p_likes := p_likes p; p_comments := cs;
     p_createdAt := p_createdAt p |}.

(** [likes.includes(id)], [likes.pull(id)] (every occurrence goes) and
    [likes.push(id)] of a mongoose array. *)
Definition includes (uid : ObjectId) (l : list ObjectId) : bool :=
  existsb (string_eqb uid) l.

Definition pull (uid : ObjectId) (l : list ObjectId) : list ObjectId :=
  List.filter (fun x => negb (string_eqb x uid)) l.

Definition push {A} (x : A) (l : list A) : list A := l ++ [x].

(** [comments.id(cid)], for a [cid] that is an object id in its string
    form (another spelling of an id would be cast to it), and
    [comment.deleteOne()] of embedded documents. *)
Definition comments_id (cid : ObjectId) (cs : list Comment)
    : option Comment :=
  List.find (fun c => string_eqb (c_id c) cid) cs.

Definition comment_deleteOne (c : Comment) (cs : list Comment)
    : list Comment :=
  List.filter (fun x => negb (string_eqb (c_id x) (c_id c))) cs.

(** *** What a response shows of a document *)

(** A reference to a user: the bare id, or after [populate] the selected
    fields of the user ([null] when there is no such user). *)
Inductive UserRef :=
| Ref (uid : ObjectId)
| Doc (uid : ObjectId) (fields : list (string * string))
| Null.

Record CommentView := {
  cv_id : ObjectId;
  cv_text : option string;
  cv_user : UserRef;
  cv_createdAt : Z
}.

Record PhotoView := {
  pv_id : ObjectId;
  pv_url : string;
  pv_description : option string;
  pv_user : UserRef;
  pv_likes : list ObjectId;
  pv_comments : list CommentView;
  pv_createdAt : Z
}.

Definition comment_view (c : Comment) : CommentView :=
  {| cv_id := c_id c; cv_text := c_text c; cv_user := Ref (c_user c);
     cv_createdAt := c_createdAt c |}.

Definition photo_view (pid : ObjectId) (p : Photo) : PhotoView :=
  {| pv_id := pid; pv_url := p_url p; pv_description := p_description p;
     pv_user := Ref (p_user p); pv_likes := p_likes p;
     pv_comments := map comment_view (p_comments p);
     pv_createdAt := p_createdAt p |}.

Definition field (name : string) (v : option string)
    : list (string * string) :=
  match v with
  | Some x => [(name, x)]
  | None => []
  end.

Definition select_fields (sel : list string) (u : User)
    : list (string * string) :=
  (if existsb (string_eqb "username") sel
   then field "username" (u_username u) else [])
  ++ (if existsb (string_eqb "email") sel
      then field "email" (u_email u) else []).

(** [populate(path, select)] on one reference. *)
Definition populate (us : list User) (sel : list string) (r : UserRef)
    : UserRef :=
  match r with
  | Ref uid =>
      match findUser uid us with
      | Some u => Doc uid (select_fields sel u)
      | None => Null
      end
  | _ => r
  end.

Definition populate_comment (us : list User) (sel : list string)
    (c : CommentView) : CommentView :=
  {| cv_id := cv_id c; cv_text := cv_text c;
     cv_user := populate us sel (cv_user c);
     cv_createdAt := cv_createdAt c |}.

Definition populate_photo (us : list User) (sel_user sel_comments : list string)
    (p : PhotoView) : PhotoView :=
  {| pv_id := pv_id p; pv_url := pv_url p;
     pv_description := pv_description p;
     pv_user := populate us sel_user (pv_user p);
     pv_likes := pv_likes p;
     pv_comments := map (populate_comment us sel_comments) (pv_comments p);
     pv_createdAt := pv_createdAt p |}.

(** ** Requests and responses *)

Inductive Method := GET | POST | PUT | DELETE.

#[global] Instance Method_eq_dec : EqDecision Method.
Proof. solve_decision. Defined.

(** [req.body] after [express.json()] (or multer): the fields the handlers
    read. *)
Record Body := {
  b_username : option string;
  b_email : option string;
  b_password : option string;
  b_description : option string;
  b_text : option string
}.

Record Request := {
  method : Method;
  path : list string;
  authorization : option string;     (* req.headers["authorization"] *)
  body : Body;
  file : option string;              (* req.file.path *)
  params : list (string * string);   (* req.params, set by the router *)
  user : option Jwt.Claims           (* req.user, set by authMiddleware *)
}.

Definition set_params (ps : list (string * string)) (r : Request) : Request :=
  {| method := method r; path := path r; authorization := authorization r;
     body := body r; file := file r; params := ps; user := user r |}.

Definition set_user (c : Jwt.Claims) (r : Request) : Request :=
  {| method := method r; path := path r; authorization := authorization r;
     body := body r; file := file r; params := params r; user := Some c |}.

(** [req.params.name] *)
Definition param (name : string) (r : Request) : option string :=
  match List.find (fun kv => string_eqb (fst kv) name) (params r) with
  | Some kv => Some (snd kv)
  | None => None
  end.

(** [req.user.id] *)
Definition req_user_id (r : Request) : Try ObjectId :=
  match user r with
  | Some c => inr (Jwt.id c)
  | None => throw "Cannot read properties of undefined (reading 'id')"
  end.

(** The JSON the handlers send. *)
Inductive Json :=
| JMessage (success : bool) (msg : string)    (* { success, message } *)
| JError (error : string)        (* { success: false, error: err.message } *)
| JErrorObject (error : Exn)                  (* { success: false, error } *)
| JLogin (token : string) (userId : ObjectId) (username : option string)
| JPhoto (photo : PhotoView)                  (* { success: true, photo } *)
| JPhotos (photos : list PhotoView)
| JComments (comments : list CommentView)     (* { success: true, comments } *)
| JLikes (likes : nat)                        (* { success: true, likes } *)
| JNoRoute.

Record Response := { status : Z; json : Json }.

Definition res_json (j : Json) : Response := {| status := 200; json := j |}.

(** What one request takes from outside the process. *)
Record World := {
  date_now : Z;                      (* Date.now(), milliseconds *)
  salt : string;                     (* the salt bcrypt.hash draws *)
  fresh : ObjectId;                  (* the _id of a new document *)
  cloud : string -> Try string       (* the upload: its secure_url *)
}.

Definition Handler : Type := World -> Request -> Store -> Response * Store.

(** A middleware answers the request or passes it on ([next()]). *)
Definition Middleware : Type := World -> Request -> Response + Request.

(** [try { ... } catch (err) { res.status(500).json(...) }]: a block that
    throws leaves the store as it found it. *)
Definition try_catch (handle : Exn -> Json) (s : Store)
    (block : Try (Response * Store)) : Response * Store :=
  match block with
  | inr r => r
  | inl err => ({| status := 500; json := handle err |}, s)
  end.

Definition err_message (err : Exn) : Json := JError (message err).

Definition not_found (what : string) : Response :=
  {| status := 404; json := JMessage false (what +:+ " not found") |}.

Definition not_allowed : Response :=
  {| status := 403; json := JMessage false "Not allowed" |}.

(** ** The server *)

(** bcrypt and the primitives of jsonwebtoken are parameters of the
    server: the key derivation and its check, the MAC of a token, and the
    codec of the payload segment. *)
Record Lib := {
  bcrypt_kdf : string -> nat -> string -> string;
  bcrypt_check : string -> string -> bool;
  hmac : string -> string -> string;
  encode_claims : Jwt.Claims -> string;
  decode_claims : string -> option Jwt.Claims
}.

Section Server.

Variable lib : Lib.

(** [process.env.JWT_SECRET]; the empty string when it is not set. *)
Variable JWT_SECRET : string.

(** [bcrypt.hash(data, rounds)] *)
Definition bcrypt_hash (data : option string) (rounds : nat)
    (salt : string) : Try string :=
  match data with
  | None => throw "data and salt arguments required"
  | Some d => inr (bcrypt_kdf lib d rounds salt)
  end.

(** [bcrypt.compare(data, hash)] *)
Definition bcrypt_compare (data : option string) (hash : string)
    : Try bool :=
  match data with
  | None => throw "data and hash arguments required"
  | Some d => inr (bcrypt_check lib d hash)
  end.

Definition jwt_sign := Jwt.sign (hmac lib) (encode_claims lib).
Definition jwt_verify := Jwt.verify (hmac lib) (decode_claims lib).

(** The clock of jsonwebtoken: [Math.floor(Date.now() / 1000)]. *)
Definition seconds (w : World) : Z := date_now w / 1000.

(** *** JWT middleware *)

Definition authMiddleware : Middleware := fun w req =>
  match authorization req with
  | None => inl {| status := 401; json := JMessage false "No token" |}
  | Some token =>
      if string_eqb token ""
      then inl {| status := 401; json := JMessage false "No token" |}
      else
        match jwt_verify token JWT_SECRET (seconds w) with
        | inl err =>
            inl {| status := 403; json := JMessage false "Invalid token" |}
        | inr decoded => inr (set_user decoded req)
        end
  end.

(** [upload.single("photo")]: multer has put the file in [req.file]. *)
Definition upload_single : Middleware := fun w req => inr req.

(** *** Auth routes *)

Definition signup : Handler := fun w req s =>
  try_catch err_message s (
    let username := b_username (body req) in
    let email := b_email (body req) in
    let password := b_password (body req) in
    do hashed <- bcrypt_hash password 10 (salt w);
    let user := {| u_id := fresh w; u_username := username;
                   u_email := email; u_password := hashed |} in
    do s' <- save_user user s;
    inr (res_json (JMessage true "User registered"), s')).

Definition login : Handler := fun w req s =>
  try_catch err_message s (
    let email := b_email (body req) in
    let password := b_password (body req) in
    match findOne_email email (users s) with
    | None =>
        inr ({| status := 400; json := JMessage false "User not found" |}, s)
    | Some user =>
        do isMatch <- bcrypt_compare password (u_password user);
        if negb isMatch
        then inr ({| status := 400;
                     json := JMessage false "Invalid credentials" |}, s)
        else
          do token <- jwt_sign (u_id user) JWT_SECRET (Jwt.Hours 2)
                        (seconds w);
          inr (res_json (JLogin token (u_id user) (u_username user)), s)
    end).

(** *** Photo routes *)

Definition upload : Handler := fun w req s =>
  try_catch JErrorObject s (
    do file_path <- match file req with
                    | Some p => inr p
                    | None =>
                        throw
                          "Cannot read properties of undefined (reading 'path')"
                    end;
    do secure_url <- cloud w file_path;
    do uid <- req_user_id req;
    let newPhoto :=
      {| p_url := secure_url;
         p_description :=
           Some (match b_description (body req) with
                 | Some d => if string_eqb d "" then "" else d
                 | None => ""
                 end);
         p_user := uid; p_likes := []; p_comments := [];
         p_createdAt := date_now w |} in
    do s' <- insert_photo (fresh w) newPhoto s;
    inr (res_json (JPhoto (photo_view (fresh w) newPhoto)), s')).

(** [createdAt: -1]: newest first. *)
Definition newer (p q : PhotoView) : Prop := pv_createdAt q <= pv_createdAt p.

#[local] Instance newer_dec : RelDecision newer :=
  fun p q => decide (pv_createdAt q <= pv_createdAt p).

Definition get_photos : Handler := fun w req s =>
  try_catch err_message s (
    let found := map (fun kv => photo_view (fst kv) (snd kv))
                   (map_to_list (photos s)) in
    let populated :=
      map (populate_photo (users s) ["username"; "email"] ["username"])
        found in
    inr (res_json (JPhotos (merge_sort newer populated)), s)).

Definition new_comment (w : World) (req : Request) (uid : ObjectId)
    : Comment :=
  {| c_id := fresh w; c_text := b_text (body req); c_user := uid;
     c_createdAt := date_now w |}.

(** The first [app.post("/photos/:id/comment", ...)]. *)
Definition post_comment_populated : Handler := fun w req s =>
  try_catch err_message s (
    match findById (param "id" req) s with
    | None => inr (not_found "Photo", s)
    | Some (pid, photo) =>
        do uid <- req_user_id req;
        let comment := new_comment w req uid in
        let photo := set_comments (push comment (p_comments photo)) photo in
        let s' := save_photo pid photo s in
        match findById (param "id" req) s' with
        | None => throw "Cannot read properties of null (reading 'comments')"
        | Some (_, updatedPhoto) =>
            let updated :=
              populate_photo (users s') ["username"] ["username"]
                (photo_view pid updatedPhoto) in
            inr (res_json (JComments (pv_comments updated)), s')
        end
    end).

Definition put_description : Handler := fun w req s =>
  try_catch err_message s (
    match findById (param "id" req) s with
    | None => inr (not_found "Photo", s)
    | Some (pid, photo) =>
        do uid <- req_user_id req;
        if negb (string_eqb (p_user photo) uid)
        then inr (not_allowed, s)
        else
          let photo := set_description (b_description (body req)) photo in
          let s' := save_photo pid photo s in
          inr (res_json (JPhoto (photo_view pid photo)), s')
    end).

Definition post_like : Handler := fun w req s =>
  try_catch err_message s (
    match findById (param "id" req) s with
    | None => inr (not_found "Photo", s)
    | Some (pid, photo) =>
        do uid <- req_user_id req;
        let alreadyLiked := includes uid (p_likes photo) in
        let photo :=
          if alreadyLiked
          then set_likes (pull uid (p_likes photo)) photo
          else set_likes (push uid (p_likes photo)) photo in
        let s' := save_photo pid photo s in
        inr (res_json (JLikes (length (p_likes photo))), s')
    end).

(** *** Comment routes *)

(** The second [app.post("/photos/:id/comment", ...)]. *)
Definition post_comment : Handler := fun w req s =>
  try_catch err_message s (
    match findById (param "id" req) s with
    | None => inr (not_found "Photo", s)
    | Some (pid, photo) =>
        do uid <- req_user_id req;
        let comment := new_comment w req uid in
        let photo := set_comments (push comment (p_comments photo)) photo in
        let s' := save_photo pid photo s in
        inr (res_json (JComments (map comment_view (p_comments photo))), s')
    end).

Definition delete_comment : Handler := fun w req s =>
  try_catch err_message s (
    match findById (param "photoId" req) s with
    | None => inr (not_found "Photo", s)
    | Some (pid, photo) =>
        match param "commentId" req with
        | None => inr (not_found "Comment", s)
        | Some commentId =>
            match comments_id commentId (p_comments photo) with
            | None => inr (not_found "Comment", s)
            | Some comment =>
                do uid <- req_user_id req;
                if negb (string_eqb (c_user comment) uid)
                then inr (not_allowed, s)
                else
                  let photo :=
                    set_comments
                      (comment_deleteOne comment (p_comments photo)) photo in
                  let s' := save_photo pid photo s in
                  inr (res_json (JMessage true "Comment deleted"), s')
            end
        end
    end).

Definition delete_photo : Handler := fun w req s =>
  try_catch err_message s (
    match findById (param "id" req) s with
    | None => inr (not_found "Photo", s)
    | Some (pid, photo) =>
        do uid <- req_user_id req;
        if negb (string_eqb (p_user photo) uid)
        then inr (not_allowed, s)
        else
          let s' := deleteOne_photo pid s in
          inr (res_json (JMessage true "Photo deleted"), s')
    end).

(** *** The router *)

Inductive Segment :=
| Lit (s : string)
| Par (name : string).

(** A path against the pattern of a route: the route parameters.  The
    literal segments are compared as they are written in the routes
    (Express also takes them in another case, and with a slash at the
    end of the path). *)
Fixpoint match_path (pat : list Segment) (p : list string)
    : option (list (string * string)) :=
  match pat, p with
  | [], [] => Some []
  | Lit s :: pat', x :: p' =>
      if string_eqb s x then match_path pat' p' else None
  | Par name :: pat', x :: p' =>
      match match_path pat' p' with
      | Some ps => Some ((name, x) :: ps)
      | None => None
      end
  | _, _ => None
  end.

Record Route := {
  r_method : Method;
  r_path : list Segment;
  r_stack : list Middleware;
  r_handler : Handler
}.

Fixpoint run_stack (ms : list Middleware) (h : Handler) : Handler :=
  fun w req s =>
    match ms with
    | [] => h w req s
    | m :: ms' =>
        match m w req with
        | inl res => (res, s)
        | inr req' => run_stack ms' h w req' s
        end
    end.

(** Express tries the routes in the order of their registration; the
    first one that matches answers (no handler here calls [next()]). *)
Fixpoint dispatch (routes : list Route) : Handler :=
  fun w req s =>
    match routes with
    | [] => ({| status := 404; json := JNoRoute |}, s)
    | r :: rest =>
        if bool_decide (method req = r_method r)
        then match match_path (r_path r) (path req) with
             | Some ps =>
                 run_stack (r_stack r) (r_handler r) w (set_params ps req) s
             | None => dispatch rest w req s
             end
        else dispatch rest w req s
    end.

Definition app : list Route :=
  [ {| r_method := POST; r_path := [Lit "signup"];
       r_stack := []; r_handler := signup |};
    {| r_method := POST; r_path := [Lit "login"];
       r_stack := []; r_handler := login |};
    {| r_method := POST; r_path := [Lit "upload"];
       r_stack := [authMiddleware; upload_single]; r_handler := upload |};
    {| r_method := GET; r_path := [Lit "photos"];
       r_stack := [authMiddleware]; r_handler := get_photos |};
    {| r_method := POST; r_path := [Lit "photos"; Par "id"; Lit "comment"];
       r_stack := [authMiddleware]; r_handler := post_comment_populated |};
    {| r_method := PUT;
       r_path := [Lit "photos"; Par "id"; Lit "description"];
       r_stack := [authMiddleware]; r_handler := put_description |};
    {| r_method := POST; r_path := [Lit "photos"; Par "id"; Lit "like"];
       r_stack := [authMiddleware]; r_handler := post_like |};
    {| r_method := POST; r_path := [Lit "photos"; Par "id"; Lit "comment"];
       r_stack := [authMiddleware]; r_handler := post_comment |};
    {| r_method := DELETE;
       r_path := [Lit "photos"; Par "photoId"; Lit "comment";
                  Par "commentId"];
       r_stack := [authMiddleware]; r_handler := delete_comment |};
    {| r_method := DELETE; r_path := [Lit "photos"; Par "id"];
       r_stack := [authMiddleware]; r_handler := delete_photo |} ].

Definition server : Handler := dispatch app.

(** The stores the server can be in: from the empty store by requests. *)
Inductive reachable : Store -> Prop :=
| reachable_empty : reachable empty_store
| reachable_step w req s :
    reachable s -> reachable (snd (server w req s)).

End Server.

(** ** The contract of the token primitives *)

(** What the server needs of jsonwebtoken's primitives: the payload codec
    round-trips, and a payload segment and a MAC are non-empty base64url
    text. *)
Definition jwt_contract (lib : Lib) : Prop :=
  (forall c, decode_claims lib (encode_claims lib c) = Some c)
  /\ (forall c, Jwt.b64url_segment (encode_claims lib c) = true)
  /\ (forall k m, Jwt.b64url_segment (hmac lib k m) = true).

(** ** An instance of the primitives

    A small instance on which the handlers run: the payload is written in
    binary digits ([I], [O]), its fields separated by [_]; the MAC is the
    key and the message in the same digits.  It has none of the strength
    of the real primitives; it shows the contract can be met and gives
    the examples something to evaluate. *)
Module Sample.

Definition bit (b : bool) : ascii := if b then "I"%char else "O"%char.

Definition unbit (c : ascii) : option bool :=
  if Ascii.eqb c "I" then Some true
  else if Ascii.eqb c "O" then Some false
  else None.

Fixpoint enc_string (s : string) : string :=
  match s with
  | EmptyString => EmptyString
  | String (Ascii b0 b1 b2 b3 b4 b5 b6 b7) r =>
      String (bit b0) (String (bit b1) (String (bit b2) (String (bit b3)
      (String (bit b4) (String (bit b5) (String (bit b6) (String (bit b7)
      (enc_string r))))))))
  end.

Fixpoint dec_string (s : string) : option string :=
  match s with
  | EmptyString => Some EmptyString
  | String c0 (String c1 (String c2 (String c3
    (String c4 (String c5 (String c6 (String c7 r))))))) =>
      match unbit c0, unbit c1, unbit c2, unbit c3,
            unbit c4, unbit c5, unbit c6, unbit c7, dec_string r with
      | Some b0, Some b1, Some b2, Some b3,
        Some b4, Some b5, Some b6, Some b7, Some r' =>
          Some (String (Ascii b0 b1 b2 b3 b4 b5 b6 b7) r')
      | _, _, _, _, _, _, _, _, _ => None
      end
  | _ => None
  end.

Fixpoint enc_pos (p : positive) : string :=
  match p with
  | xH => "H"
  | xO q => String "O" (enc_pos q)
  | xI q => String "I" (enc_pos q)
  end.

Fixpoint dec_pos (s : string) : option positive :=
  match s with
  | EmptyString => None
  | String c r =>
      if Ascii.eqb c "H" then (if string_eqb r "" then Some xH else None)
      else if Ascii.eqb c "O" then option_map xO (dec_pos r)
      else if Ascii.eqb c "I" then option_map xI (dec_pos r)
      else None
  end.

Definition enc_Z (z : Z) : string :=
  match z with
  | Z0 => "z"
  | Zpos p => String "p" (enc_pos p)
  | Zneg p => String "n" (enc_pos p)
  end.

Definition dec_Z (s : string) : option Z :=
  match s with
  | EmptyString => None
  | String c r =>
      if Ascii.eqb c "z" then (if string_eqb r "" then Some Z0 else None)
      else if Ascii.eqb c "p" then option_map Zpos (dec_pos r)
      else if Ascii.eqb c "n" then option_map Zneg (dec_pos r)
      else None
  end.

Definition encode (c : Jwt.Claims) : string :=
  enc_string (Jwt.id c) +:+ "_" +:+ enc_Z (Jwt.iat c)
    +:+ "_" +:+ enc_Z (Jwt.exp c).

Definition decode (s : string) : option Jwt.Claims :=
  match split_on "_" s with
  | [a; b; c] =>
      match dec_string a, dec_Z b, dec_Z c with
      | Some i, Some t, Some e =>
          Some {| Jwt.id := i; Jwt.iat := t; Jwt.exp := e |}
      | _, _, _ => None
      end
  | _ => None
  end.

Definition mac (key msg : string) : string :=
  String "s" (enc_string (key +:+ msg)).

Definition kdf (data : string) (rounds : nat) (salt : string) : string :=
  salt +:+ "$" +:+ data.

Definition check (data hash : string) : bool :=
  match split_on "$" hash with
  | [_; d] => string_eqb d data
  | _ => false
  end.

Definition lib : Lib :=
  {| bcrypt_kdf := kdf; bcrypt_check := check; hmac := mac;
     encode_claims := encode; decode_claims := decode |}.

Definition secret : string := "s3cret".

Definition world (now : Z) (slt oid : string) : World :=
  {| date_now := now; salt := slt; fresh := oid;
     cloud := fun p => inr ("https://res.cloudinary.com/gallery/" +:+ p) |}.

(** A media host that is down. *)
Definition world_down (now : Z) (oid : string) : World :=
  {| date_now := now; salt := ""; fresh := oid;
     cloud := fun p => throw "connect ETIMEDOUT" |}.

Definition no_body : Body :=
  {| b_username := None; b_email := None; b_password := None;
     b_description := None; b_text := None |}.

Definition credentials (name email pw : string) : Body :=
  {| b_username := Some name; b_email := Some email; b_password := Some pw;
     b_description := None; b_text := None |}.

Definition request (m : Method) (p : list string) (auth : option string)
    (b : Body) : Request :=
  {| method := m; path := p; authorization := auth; body := b;
     file := None; params := []; user := None |}.

Definition alice : User :=
  {| u_id := "a1"; u_username := Some "a"; u_email := Some "a@x.com";
     u_password := kdf "pw" 10 "salt" |}.

Definition bob : User :=
  {| u_id := "b2"; u_username := Some "b"; u_email := Some "b@x.com";
     u_password := kdf "pw2" 10 "salt" |}.

Definition comment1 : Comment :=
  {| c_id := "c1"; c_text := Some "nice"; c_user := "b2";
     c_createdAt := 2000 |}.

Definition photo1 : Photo :=
  {| p_url := "https://res.cloudinary.com/gallery/1.png";
     p_description := Some "first"; p_user := "a1"; p_likes := ["b2"];
     p_comments := [comment1]; p_createdAt := 1000 |}.

Definition store1 : Store :=
  {| users := [alice; bob]; photos := {[ "p1" := photo1 ]} |}.

(** The token [/login] issues at clock [now] (milliseconds). *)
Definition token_of (uid : string) (now : Z) : string :=
  match Jwt.sign mac encode uid secret (Jwt.Hours 2) (now / 1000) with
  | inr t => t
  | inl _ => ""
  end.

(** The claims of a token issued at clock 5000. *)
Definition claims_of (uid : string) : Jwt.Claims :=
  {| Jwt.id := uid; Jwt.iat := 5; Jwt.exp := 7205 |}.

(** A request of the user [uid], with the token issued at clock 5000. *)
Definition as_user (uid : string) (m : Method) (p : list string)
    (b : Body) : Request :=
  request m p (Some (token_of uid 5000)) b.

Definition describe (d : string) : Body :=
  {| b_username := None; b_email := None; b_password := None;
     b_description := Some d; b_text := None |}.

Definition say (t : string) : Body :=
  {| b_username := None; b_email := None; b_password := None;
     b_description := None; b_text := Some t |}.

Definition with_file (f : string) (r : Request) : Request :=
  {| method := method r; path := path r; authorization := authorization r;
     body := body r; file := Some f; params := params r; user := user r |}.

Definition later : World := world 6000 "pepper" "n1".

End Sample.

(** ** Object ids in their string form *)

(** The digits of [ObjectId.toString()]: [[0-9a-f]]. *)
Definition hex_digit (c : ascii) : bool :=
  let n := N_of_ascii c in
  ((48 <=? n) && (n <=? 57) || (97 <=? n) && (n <=? 102))%N.

(** The string is an object id as [toString()] prints it: 24 hexadecimal
    digits in lower case.  The cast of mongoose leaves such a string as
    it is. *)
Definition is_object_id (s : string) : bool :=
  Nat.eqb (String.length s) 24 && string_forallb hex_digit s.

(** ** A gallery with object ids

    Two users, three photos uploaded at different dates, two comments on
    the first photo; every id is an object id in its string form. *)
Module Gallery.

Definition ann_id : string := "64b7f0a1c2d3e4f5a6b7c8a1".
Definition ben_id : string := "64b7f0a1c2d3e4f5a6b7c8b2".
Definition photo1_id : string := "64b7f0a1c2d3e4f5a6b7c901".
Definition photo2_id : string := "64b7f0a1c2d3e4f5a6b7c902".
Definition photo3_id : string := "64b7f0a1c2d3e4f5a6b7c903".
Definition comment1_id : string := "64b7f0a1c2d3e4f5a6b7ca01".
Definition comment2_id : string := "64b7f0a1c2d3e4f5a6b7ca02".
Definition new_id : string := "64b7f0a1c2d3e4f5a6b7cf01".
Definition absent_id : string := "64b7f0a1c2d3e4f5a6b7c9ff".

Definition ann : User :=
  {| u_id := ann_id; u_username := Some "ann"; u_email := Some "ann@x.com";
     u_password := Sample.kdf "pw" 10 "salt" |}.

Definition ben : User :=
  {| u_id := ben_id; u_username := Some "ben"; u_email := Some "ben@x.com";
     u_password := Sample.kdf "pw2" 10 "salt" |}.

Definition comment1 : Comment :=
  {| c_id := comment1_id; c_text := Some "nice"; c_user := ben_id;
     c_createdAt := 2100 |}.

Definition comment2 : Comment :=
  {| c_id := comment2_id; c_text := Some "thanks"; c_user := ann_id;
     c_createdAt := 2200 |}.

Definition photo1 : Photo :=
  {| p_url := "https://res.cloudinary.com/gallery/1.png";
     p_description := Some "first"; p_user := ann_id; p_likes := [ben_id];
     p_comments := [comment1; comment2]; p_createdAt := 2000 |}.

Definition photo2 : Photo :=
  {| p_url := "https://res.cloudinary.com/gallery/2.png";
     p_description := Some "second"; p_user := ben_id; p_likes := [];
     p_comments := []; p_createdAt := 3000 |}.

Definition photo3 : Photo :=
  {| p_url := "https://res.cloudinary.com/gallery/3.png";
     p_description := Some ""; p_user := ann_id; p_likes := [];
     p_comments := []; p_createdAt := 1000 |}.

Definition store : Store :=
  {| users := [ann; ben];
     photos := <[photo1_id := photo1]>
                 (<[photo2_id := photo2]> {[ photo3_id := photo3 ]}) |}.

(** A request at clock 6000, with the token [/login] issued at clock
    5000 for the user [uid]. *)
Definition now : World := Sample.world 6000 "pepper" new_id.

Definition as_user (uid : string) (m : Method) (p : list string)
    (b : Body) : Request :=
  Sample.request m p (Some (Sample.token_of uid 5000)) b.

End Gallery.

(** ** Notions the properties are stated with *)

(** The request carries a token the verifier accepts at the clock of [w],
    with the claims [c]: the caller is the user [Jwt.id c]. *)
Definition authenticated (lib : Lib) (secret : string) (w : World)
    (req : Request) (c : Jwt.Claims) : Prop :=
  exists token,
    authorization req = Some token
    /\ jwt_verify lib token secret (seconds w) = inr c.

(** Every photo has each user at most once among its likes. *)
Definition likes_unique (s : Store) : Prop :=
  forall pid p, photos s !! pid = Some p -> NoDup (p_likes p).

Definition token_char (a : ascii) : bool :=
  Jwt.b64url_char a || Ascii.eqb a ".".

(** A handler keeps the likes of every photo free of repetitions. *)
Definition keeps_likes_unique (h : Handler) : Prop :=
  forall w req s, likes_unique s -> likes_unique (snd (h w req s)).

(** The comments of a response with their authors populated, as the
    first comment handler sends them. *)
Definition with_authors (us : list User) (j : Json) : Json :=
  match j with
  | JComments cs => JComments (map (populate_comment us ["username"]) cs)
  | _ => j
  end.

Definition invalid_token : Response :=
  {| status := 403; json := JMessage false "Invalid token" |}.

Definition no_token : Response :=
  {| status := 401; json := JMessage false "No token" |}.

(** ** Notions for the properties of the whole server *)

(** The user the gate finds behind a request: the [id] of the token it
    decodes; none when the gate answers the request itself. *)
Definition caller_of (lib : Lib) (secret : string) (w : World)
    (req : Request) : option string :=
  match authMiddleware lib secret w req with
  | inr req' => Jwt.id <$> user req'
  | inl _ => None
  end.

(** What one request can do to the store, and in whose name. *)
Inductive change (caller : option string) (w : World) (s : Store)
    : Store -> Prop :=
| change_none : change caller w s s
| change_signup u :
    u_id u = fresh w ->
    change caller w s (set_users (users s ++ [u]) s)
| change_upload uid p :
    caller = Some uid ->
    photos s !! fresh w = None ->
    p_user p = uid -> p_likes p = [] -> p_comments p = [] ->
    p_createdAt p = date_now w ->
    change caller w s (set_photos (<[fresh w := p]> (photos s)) s)
| change_comment uid pid p cm :
    caller = Some uid ->
    photos s !! pid = Some p ->
    c_user cm = uid -> c_id cm = fresh w ->
    change caller w s
      (save_photo pid (set_comments (p_comments p ++ [cm]) p) s)
| change_description uid pid p d :
    caller = Some uid ->
    photos s !! pid = Some p ->
    p_user p = uid ->
    change caller w s (save_photo pid (set_description d p) s)
| change_like uid pid p :
    caller = Some uid ->
    photos s !! pid = Some p ->
    change caller w s
      (save_photo pid
         (set_likes (if includes uid (p_likes p)
                     then pull uid (p_likes p)
                     else push uid (p_likes p)) p) s)
| change_uncomment uid pid p cm :
    caller = Some uid ->
    photos s !! pid = Some p ->
    cm ∈ p_comments p ->
    c_user cm = uid ->
    change caller w s
      (save_photo pid
         (set_comments (comment_deleteOne cm (p_comments p)) p) s)
| change_delete uid pid p :
    caller = Some uid ->
    photos s !! pid = Some p ->
    p_user p = uid ->
    change caller w s (deleteOne_photo pid s).

(** A handler changes the store in the name of [req.user] only. *)
Definition acts_for_user (h : Handler) : Prop :=
  forall w r s, change (Jwt.id <$> user r) w s (snd (h w r s)).

(** A handler that does not answer 200 has left the store alone. *)
Definition all_or_nothing (h : Handler) : Prop :=
  forall w r s, status (fst (h w r s)) <> 200 -> snd (h w r s) = s.

(** The routes with the comment endpoint registered once. *)
Definition app_once (lib : Lib) (secret : string) : list Route :=
  [ {| r_method := POST; r_path := [Lit "signup"];
       r_stack := []; r_handler := signup lib |};
    {| r_method := POST; r_path := [Lit "login"];
       r_stack := []; r_handler := login lib secret |};
    {| r_method := POST; r_path := [Lit "upload"];
       r_stack := [authMiddleware lib secret; upload_single];
       r_handler := upload |};
    {| r_method := GET; r_path := [Lit "photos"];
       r_stack := [authMiddleware lib secret]; r_handler := get_photos |};
    {| r_method := POST; r_path := [Lit "photos"; Par "id"; Lit "comment"];
       r_stack := [authMiddleware lib secret];
       r_handler := post_comment_populated |};
    {| r_method := PUT;
       r_path := [Lit "photos"; Par "id"; Lit "description"];
       r_stack := [authMiddleware lib secret];
       r_handler := put_description |};
    {| r_method := POST; r_path := [Lit "photos"; Par "id"; Lit "like"];
       r_stack := [authMiddleware lib secret]; r_handler := post_like |};
    {| r_method := DELETE;
       r_path := [Lit "photos"; Par "photoId"; Lit "comment";
                  Par "commentId"];
       r_stack := [authMiddleware lib secret];
       r_handler := delete_comment |};
    {| r_method := DELETE; r_path := [Lit "photos"; Par "id"];
       r_stack := [authMiddleware lib secret];
       r_handler := delete_photo |} ].

(** The view of a stored photo that [GET /photos] sends. *)
Definition listed (s : Store) (pid : string) (p : Photo) : PhotoView :=
  populate_photo (users s) ["username"; "email"] ["username"]
    (photo_view pid p).

(** * Properties *)

(** ** Strings and splitting *)

Lemma string_eqb_true (a b : string) : string_eqb a b = true <-> a = b.
Proof. unfold string_eqb. apply bool_decide_eq_true. Qed.

Lemma string_eqb_false (a b : string) : string_eqb a b = false <-> a <> b.
Proof. unfold string_eqb. apply bool_decide_eq_false. Qed.

Lemma string_eqb_refl (a : string) : string_eqb a a = true.
Proof. now apply string_eqb_true. Qed.

Lemma app_nil (t : string) : "" +:+ t = t.
Proof. reflexivity. Qed.

Lemma app_cons (a : ascii) (s t : string) :
  String a s +:+ t = String a (s +:+ t).
Proof. reflexivity. Qed.

Lemma string_app_assoc (a b c : string) : (a +:+ b) +:+ c = a +:+ (b +:+ c).
Proof.
  induction a as [|x a IH]; [reflexivity |].
  rewrite !app_cons. now f_equal.
Qed.

Lemma string_forallb_impl (f g : ascii -> bool) (s : string) :
  (forall a, f a = true -> g a = true) ->
  string_forallb f s = true -> string_forallb g s = true.
Proof.
  intros Hfg. induction s as [|a s IH]; simpl; [reflexivity |].
  intros [Ha Hs]%andb_true_iff. rewrite (Hfg a Ha). now apply IH.
Qed.

Lemma split_on_absent (c : ascii) (s : string) :
  string_forallb (other_than c) s = true -> split_on c s = [s].
Proof.
  induction s as [|a s IH]; simpl; [reflexivity |].
  intros [Ha Hs]%andb_true_iff. unfold other_than in Ha.
  destruct (Ascii.eqb a c); [discriminate |]. now rewrite (IH Hs).
Qed.

Lemma split_on_app (c : ascii) (h r : string) :
  string_forallb (other_than c) h = true ->
  split_on c (h +:+ String c r) = h :: split_on c r.
Proof.
  induction h as [|a h IH]; [rewrite app_nil | rewrite app_cons]; simpl.
  - intros _. now rewrite Ascii.eqb_refl.
  - intros [Ha Hs]%andb_true_iff. unfold other_than in Ha.
    destruct (Ascii.eqb a c); [discriminate |]. now rewrite (IH Hs).
Qed.

Lemma split_on_cons (c : ascii) (s : string) :
  exists x xs, split_on c s = x :: xs.
Proof.
  destruct s as [|a s]; simpl; [now eexists _, _ |].
  destruct (Ascii.eqb a c); [now eexists _, _ |].
  destruct (split_on c s); now eexists _, _.
Qed.

(** Gluing the pieces back: a character of [s] is the separator or a
    character of a piece. *)
Lemma split_on_forallb (c : ascii) (g : ascii -> bool) (s : string) :
  forallb (string_forallb g) (split_on c s) = true ->
  string_forallb (fun a => g a || Ascii.eqb a c) s = true.
Proof.
  induction s as [|a s IH]; simpl; [reflexivity |].
  destruct (Ascii.eqb a c) eqn:Hac; simpl.
  - intros H. rewrite orb_true_r. simpl. now apply IH.
  - destruct (split_on_cons c s) as (x & xs & Hx). rewrite Hx in *.
    simpl in *. rewrite <- !andb_assoc. intros [Ha H]%andb_true_iff.
    rewrite Ha. simpl. now apply IH.
Qed.

(** ** Tokens *)

Lemma b64url_no_dot (s : string) :
  Jwt.b64url s = true -> string_forallb (other_than ".") s = true.
Proof.
  apply string_forallb_impl. intros a Ha. unfold other_than.
  destruct (Ascii.eqb a ".") eqn:E; [| reflexivity].
  apply Ascii.eqb_eq in E. subst a. discriminate Ha.
Qed.

Lemma b64url_segment_inv (s : string) :
  Jwt.b64url_segment s = true -> s <> "" /\ Jwt.b64url s = true.
Proof.
  unfold Jwt.b64url_segment. intros [H1 H2]%andb_true_iff. split; [| exact H2].
  apply negb_true_iff, string_eqb_false in H1. exact H1.
Qed.

Section Tokens.
Variable lib : Lib.
Variable secret : string.
Hypothesis contract : jwt_contract lib.
Hypothesis configured : secret <> "".

(** A token that was signed verifies until it expires. *)
Lemma verify_sign (uid : string) (span : Jwt.Timespan) (now now' : Z) :
  exists token,
    jwt_sign lib uid secret span now = inr token
    /\ jwt_verify lib token secret now'
       = let c := {| Jwt.id := uid; Jwt.iat := now;
                     Jwt.exp := now + Jwt.timespan_seconds span |} in
         if (Jwt.exp c <=? now')%Z then inl Jwt.TokenExpiredError
         else inr c.
Proof.
  destruct contract as (Hdec & Henc & Hmac).
  unfold jwt_sign, Jwt.sign.
  apply string_eqb_false in configured as Hs. rewrite Hs.
  eexists. split; [reflexivity |].
  set (c := {| Jwt.id := uid |}).
  set (input := Jwt.header_segment +:+ "." +:+ encode_claims lib c).
  destruct (b64url_segment_inv _ (Henc c)) as [Hp0 Hp].
  destruct (b64url_segment_inv _ (Hmac secret input)) as [Hm0 Hm].
  unfold jwt_verify, Jwt.verify.
  assert (Hsplit : split_on "." (input +:+ "." +:+ hmac lib secret input)
                   = [Jwt.header_segment; encode_claims lib c;
                      hmac lib secret input]).
  { unfold input. rewrite !string_app_assoc, !app_cons, !app_nil.
    rewrite split_on_app by reflexivity.
    rewrite split_on_app by now apply b64url_no_dot.
    rewrite split_on_absent by now apply b64url_no_dot.
    reflexivity. }
  rewrite Hsplit.
  rewrite (Henc c). unfold Jwt.b64url_segment at 1.
  replace (Jwt.b64url Jwt.header_segment) with true by reflexivity.
  replace (string_eqb Jwt.header_segment "") with false by reflexivity.
  rewrite Hm. simpl negb at 1. cbv iota.
  apply string_eqb_false in Hm0. rewrite Hm0, Hs.
  rewrite string_eqb_refl. simpl negb at 1. cbv iota.
  fold input. rewrite string_eqb_refl. simpl negb. cbv iota.
  rewrite Hdec. reflexivity.
Qed.
End Tokens.

(** What verifies is made of base64url characters and dots. *)
Lemma verify_chars (lib : Lib) (token secret : string) (now : Z) c :
  jwt_verify lib token secret now = inr c ->
  string_forallb token_char token = true.
Proof.
  unfold jwt_verify, Jwt.verify. intros H.
  apply (split_on_forallb "." Jwt.b64url_char).
  destruct (split_on "." token) as [|h [|p [|sg [|]]]]; try discriminate.
  destruct (Jwt.b64url_segment h && Jwt.b64url_segment p && Jwt.b64url sg)
    eqn:E; [| discriminate].
  apply andb_true_iff in E as [[Hh Hp]%andb_true_iff Hsg].
  apply b64url_segment_inv in Hh as [_ Hh].
  apply b64url_segment_inv in Hp as [_ Hp].
  simpl. unfold Jwt.b64url in *. now rewrite Hh, Hp, Hsg.
Qed.

Lemma verify_bearer (lib : Lib) (t secret : string) (now : Z) :
  exists err, jwt_verify lib ("Bearer " +:+ t) secret now = inl err.
Proof.
  destruct (jwt_verify lib ("Bearer " +:+ t) secret now) as [e | c] eqn:E;
    [now exists e |].
  apply verify_chars in E. rewrite !app_cons in E. discriminate E.
Qed.

Lemma verify_empty (lib : Lib) (secret : string) (now : Z) c :
  jwt_verify lib "" secret now <> inr c.
Proof. discriminate. Qed.

(** ** The auth gate *)

Section Gate.
Variable lib : Lib.
Variable secret : string.

Lemma auth_params w req ps :
  authMiddleware lib secret w (set_params ps req)
  = match authMiddleware lib secret w req with
    | inl res => inl res
    | inr req' => inr (set_params ps req')
    end.
Proof.
  unfold authMiddleware. simpl.
  destruct (authorization req) as [t |]; [| reflexivity].
  destruct (string_eqb t ""); [reflexivity |].
  now destruct (jwt_verify lib t secret (seconds w)).
Qed.

Lemma auth_accepts w req c :
  authenticated lib secret w req c ->
  authMiddleware lib secret w req = inr (set_user c req).
Proof.
  intros (t & Ht & Hv). unfold authMiddleware. rewrite Ht.
  destruct (string_eqb t "") eqn:E.
  - apply string_eqb_true in E. subst t. now apply verify_empty in Hv.
  - now rewrite Hv.
Qed.

Lemma auth_rejects w req res :
  authMiddleware lib secret w req = inl res ->
  res = no_token \/ res = invalid_token.
Proof.
  unfold authMiddleware.
  destruct (authorization req) as [t |]; [| intros [= <-]; now left].
  destruct (string_eqb t ""); [intros [= <-]; now left |].
  destruct (jwt_verify lib t secret (seconds w)); [| discriminate].
  intros [= <-]. now right.
Qed.

(** A protected route, for a caller the gate lets in. *)
Lemma run_protected (h : Handler) w req s ps c :
  authenticated lib secret w req c ->
  run_stack [authMiddleware lib secret] h w (set_params ps req) s
  = h w (set_params ps (set_user c req)) s.
Proof.
  intros Ha. simpl. rewrite auth_params, (auth_accepts _ _ _ Ha).
  reflexivity.
Qed.

Lemma route_put_description w req s pid :
  method req = PUT -> path req = ["photos"; pid; "description"] ->
  server lib secret w req s
  = run_stack [authMiddleware lib secret] put_description w
      (set_params [("id", pid)] req) s.
Proof. destruct req; simpl; intros -> ->; reflexivity. Qed.

Lemma route_delete_photo w req s pid :
  method req = DELETE -> path req = ["photos"; pid] ->
  server lib secret w req s
  = run_stack [authMiddleware lib secret] delete_photo w
      (set_params [("id", pid)] req) s.
Proof. destruct req; simpl; intros -> ->; reflexivity. Qed.

Lemma route_delete_comment w req s pid cid :
  method req = DELETE -> path req = ["photos"; pid; "comment"; cid] ->
  server lib secret w req s
  = run_stack [authMiddleware lib secret] delete_comment w
      (set_params [("photoId", pid); ("commentId", cid)] req) s.
Proof. destruct req; simpl; intros -> ->; reflexivity. Qed.

Lemma route_like w req s pid :
  method req = POST -> path req = ["photos"; pid; "like"] ->
  server lib secret w req s
  = run_stack [authMiddleware lib secret] post_like w
      (set_params [("id", pid)] req) s.
Proof. destruct req; simpl; intros -> ->; reflexivity. Qed.

Lemma route_comment w req s pid :
  method req = POST -> path req = ["photos"; pid; "comment"] ->
  server lib secret w req s
  = run_stack [authMiddleware lib secret] post_comment_populated w
      (set_params [("id", pid)] req) s.
Proof. destruct req; simpl; intros -> ->; reflexivity. Qed.

Lemma route_upload w req s :
  method req = POST -> path req = ["upload"] ->
  server lib secret w req s
  = run_stack [authMiddleware lib secret; upload_single] upload w
      (set_params [] req) s.
Proof. destruct req; simpl; intros -> ->; reflexivity. Qed.

Lemma route_signup w req s :
  method req = POST -> path req = ["signup"] ->
  server lib secret w req s = signup lib w (set_params [] req) s.
Proof. destruct req; simpl; intros -> ->; reflexivity. Qed.

Lemma route_login w req s :
  method req = POST -> path req = ["login"] ->
  server lib secret w req s = login lib secret w (set_params [] req) s.
Proof. destruct req; simpl; intros -> ->; reflexivity. Qed.
End Gate.

(** ** The likes of a photo *)

Lemma includes_true (uid : string) (l : list string) :
  includes uid l = true <-> uid ∈ l.
Proof.
  unfold includes. rewrite existsb_exists, list_elem_of_In. split.
  - intros (x & Hx & E). apply string_eqb_true in E. now subst.
  - intros H. exists uid. split; [exact H | apply string_eqb_refl].
Qed.

Lemma includes_false (uid : string) (l : list string) :
  includes uid l = false <-> uid ∉ l.
Proof.
  rewrite <- includes_true. destruct (includes uid l); split; congruence.
Qed.

Lemma elem_of_pull (x uid : string) (l : list string) :
  x ∈ pull uid l <-> x ∈ l /\ x <> uid.
Proof.
  unfold pull. rewrite !list_elem_of_In, filter_In, negb_true_iff.
  now rewrite string_eqb_false.
Qed.

Lemma pull_absent (uid : string) (l : list string) :
  uid ∉ l -> pull uid l = l.
Proof.
  induction l as [|x l IH]; [reflexivity |].
  intros [Hx Hl]%not_elem_of_cons. simpl.
  assert (E : string_eqb x uid = false) by (apply string_eqb_false; congruence).
  rewrite E. simpl. now rewrite IH.
Qed.

Lemma pull_push (uid : string) (l : list string) :
  uid ∉ l -> pull uid (push uid l) = l.
Proof.
  intros H. unfold push, pull. rewrite List.filter_app. simpl.
  rewrite string_eqb_refl. simpl. rewrite app_nil_r. now apply pull_absent.
Qed.

Lemma pull_NoDup (uid : string) (l : list string) :
  NoDup l -> NoDup (pull uid l).
Proof.
  rewrite !NoDup_ListNoDup. apply List.NoDup_filter.
Qed.

Lemma push_NoDup (uid : string) (l : list string) :
  uid ∉ l -> NoDup l -> NoDup (push uid l).
Proof.
  intros H Hl. unfold push. apply NoDup_app. split; [exact Hl |].
  split; [| apply NoDup_singleton].
  intros x Hx ->%list_elem_of_singleton. contradiction.
Qed.

(** Taking a user out of likes that hold them once and putting them back
    gives the same likes, in another order. *)
Lemma push_pull (uid : string) (l : list string) :
  NoDup l -> uid ∈ l -> push uid (pull uid l) ≡ₚ l.
Proof.
  unfold push. induction 1 as [|x l Hx Hl IH]; [now intros ?%elem_of_nil |].
  intros [-> | Hin]%elem_of_cons; simpl.
  - rewrite string_eqb_refl. simpl. fold (pull x l).
    rewrite (pull_absent _ _ Hx). now rewrite <- Permutation_cons_append.
  - assert (E : string_eqb x uid = false).
    { apply string_eqb_false. intros ->. contradiction. }
    rewrite E. simpl. fold (pull uid l). now rewrite (IH Hin).
Qed.

(** ** The photo and comment routes *)

Section Routes.
Variable lib : Lib.
Variable secret : string.

Lemma findById_some pid p s :
  photos s !! pid = Some p -> findById (Some pid) s = Some (pid, p).
Proof. intros H. unfold findById. now rewrite H. Qed.

Lemma findById_none pid s :
  photos s !! pid = None -> findById (Some pid) s = None.
Proof. intros H. unfold findById. now rewrite H. Qed.

(** C1. For an authenticated request to update the description of a
    photo or to delete a photo, the id of the route being an object id in
    its string form: when no photo has the id the answer is 404 and the
    store is as before; when the photo is there and the caller is not its
    owner the answer is 403 and the store is as before; the request of
    the owner, and no other, performs the mutation: the photo is stored
    with the description of the body and its other fields as they were,
    or the photo is taken off the store. *)
Theorem owner_only_update_and_delete w req s pid c :
  authenticated lib secret w req c ->
  is_object_id pid = true ->
  (method req = PUT /\ path req = ["photos"; pid; "description"]
   \/ method req = DELETE /\ path req = ["photos"; pid]) ->
  (photos s !! pid = None ->
     server lib secret w req s
     = ({| status := 404; json := JMessage false "Photo not found" |}, s))
  /\ (forall p, photos s !! pid = Some p -> p_user p <> Jwt.id c ->
        server lib secret w req s
        = ({| status := 403; json := JMessage false "Not allowed" |}, s))
  /\ (forall p, photos s !! pid = Some p -> p_user p = Jwt.id c ->
        (method req = PUT ->
           let p' := {| p_url := p_url p;
                        p_description := b_description (body req);
                        p_user := p_user p; p_likes := p_likes p;
                        p_comments := p_comments p;
                        p_createdAt := p_createdAt p |} in
           server lib secret w req s
           = ({| status := 200; json := JPhoto (photo_view pid p') |},
              {| users := users s;
                 photos := <[pid := p']> (photos s) |}))
        /\ (method req = DELETE ->
              server lib secret w req s
              = ({| status := 200; json := JMessage true "Photo deleted" |},
                 {| users := users s;
                    photos := delete pid (photos s) |}))).
Proof.
  intros Ha _ [[Hm Hp] | [Hm Hp]].
  - rewrite (route_put_description _ _ _ _ _ _ Hm Hp).
    rewrite (run_protected _ _ _ _ _ _ _ _ Ha).
    unfold put_description.
    change (param "id" _) with (Some pid).
    split; [| split].
    + intros Hn. now rewrite (findById_none _ _ Hn).
    + intros p Hs Hne. rewrite (findById_some _ _ _ Hs). simpl.
      apply string_eqb_false in Hne. now rewrite Hne.
    + intros p Hs Ho. split; [intros _ | rewrite Hm; discriminate].
      rewrite (findById_some _ _ _ Hs). simpl.
      apply string_eqb_true in Ho. now rewrite Ho.
  - rewrite (route_delete_photo _ _ _ _ _ _ Hm Hp).
    rewrite (run_protected _ _ _ _ _ _ _ _ Ha).
    unfold delete_photo.
    change (param "id" _) with (Some pid).
    split; [| split].
    + intros Hn. now rewrite (findById_none _ _ Hn).
    + intros p Hs Hne. rewrite (findById_some _ _ _ Hs). simpl.
      apply string_eqb_false in Hne. now rewrite Hne.
    + intros p Hs Ho. split; [rewrite Hm; discriminate | intros _].
      rewrite (findById_some _ _ _ Hs). simpl.
      apply string_eqb_true in Ho. now rewrite Ho.
Qed.

Lemma post_like_found w req s pid p c :
  photos s !! pid = Some p ->
  post_like w (set_params [("id", pid)] (set_user c req)) s
  = let l := if includes (Jwt.id c) (p_likes p)
             then pull (Jwt.id c) (p_likes p)
             else push (Jwt.id c) (p_likes p) in
    (res_json (JLikes (length l)),
     set_photos (<[pid := set_likes l p]> (photos s)) s).
Proof.
  intros Hs. unfold post_like.
  change (param "id" _) with (Some pid). rewrite (findById_some _ _ _ Hs).
  simpl. now destruct (includes (Jwt.id c) (p_likes p)).
Qed.


End Routes.

(** ** The invariant of the likes *)

Lemma likes_unique_save pid p s :
  likes_unique s -> NoDup (p_likes p) -> likes_unique (save_photo pid p s).
Proof.
  intros Hs Hp q pq. unfold save_photo. cbn [photos set_photos].
  rewrite lookup_insert. case_decide.
  - intros [= <-]. exact Hp.
  - apply Hs.
Qed.

Lemma likes_unique_delete pid s :
  likes_unique s -> likes_unique (deleteOne_photo pid s).
Proof.
  intros Hs q pq. unfold deleteOne_photo. cbn [photos set_photos].
  intros [_ H]%lookup_delete_Some. now apply (Hs q).
Qed.

Lemma findById_lookup oid s pid p :
  findById oid s = Some (pid, p) -> photos s !! pid = Some p.
Proof.
  unfold findById. destruct oid as [i |]; [| discriminate].
  destruct (photos s !! i) eqn:E; [| discriminate]. now intros [= <- <-].
Qed.

(** Case analysis along the branches of a handler. *)
Ltac branch_on x :=
  lazymatch x with
  | context [match ?y with _ => _ end] => branch_on y
  | _ => destruct x eqn:?
  end.

Ltac branches :=
  repeat match goal with
    | |- context [match ?x with _ => _ end] => branch_on x
    end; cbn [snd fst].

Section Invariant.
Variable lib : Lib.
Variable secret : string.

Lemma signup_keeps : keeps_likes_unique (signup lib).
Proof.
  intros w req s Hs. unfold signup, try_catch, try_bind, bcrypt_hash, save_user.
  branches; simplify_eq; assumption.
Qed.

Lemma login_keeps : keeps_likes_unique (login lib secret).
Proof.
  intros w req s Hs.
  unfold login, try_catch, try_bind, bcrypt_compare.
  branches; simplify_eq; assumption.
Qed.

Lemma upload_keeps : keeps_likes_unique upload.
Proof.
  intros w req s Hs.
  unfold upload, try_catch, try_bind, insert_photo, req_user_id.
  branches; simplify_eq; try assumption;
    apply (likes_unique_save _ _ _ Hs); apply NoDup_nil_2.
Qed.

Lemma get_photos_keeps : keeps_likes_unique get_photos.
Proof. intros w req s Hs. exact Hs. Qed.

Lemma post_comment_populated_keeps :
  keeps_likes_unique post_comment_populated.
Proof.
  intros w req s Hs.
  unfold post_comment_populated, try_catch, try_bind, req_user_id.
  branches; simplify_eq; try assumption;
    apply (likes_unique_save _ _ _ Hs); cbn [p_likes set_comments];
    match goal with
    | H : findById _ s = Some _ |- _ =>
        apply findById_lookup in H; now apply Hs in H
    end.
Qed.

Lemma post_comment_keeps : keeps_likes_unique post_comment.
Proof.
  intros w req s Hs.
  unfold post_comment, try_catch, try_bind, req_user_id.
  branches; simplify_eq; try assumption;
    apply (likes_unique_save _ _ _ Hs); cbn [p_likes set_comments];
  match goal with
  | H : findById _ s = Some _ |- _ =>
      apply findById_lookup in H; now apply Hs in H
  end.
Qed.

Lemma put_description_keeps : keeps_likes_unique put_description.
Proof.
  intros w req s Hs.
  unfold put_description, try_catch, try_bind, req_user_id.
  branches; simplify_eq; try assumption;
    apply (likes_unique_save _ _ _ Hs); cbn [p_likes set_description];
  match goal with
  | H : findById _ s = Some _ |- _ =>
      apply findById_lookup in H; now apply Hs in H
  end.
Qed.

(** The toggle adds a user only when [includes] has not found them. *)
Lemma post_like_keeps : keeps_likes_unique post_like.
Proof.
  intros w req s Hs.
  unfold post_like, try_catch, try_bind, req_user_id.
  branches; simplify_eq; try assumption;
    apply (likes_unique_save _ _ _ Hs); cbn [p_likes set_likes];
    match goal with
    | H : findById _ s = Some _ |- _ =>
        apply findById_lookup in H; apply Hs in H
    end.
  - now apply pull_NoDup.
  - apply push_NoDup; [| assumption]. now apply includes_false.
Qed.

Lemma delete_comment_keeps : keeps_likes_unique delete_comment.
Proof.
  intros w req s Hs.
  unfold delete_comment, try_catch, try_bind, req_user_id.
  branches; simplify_eq; try assumption;
    apply (likes_unique_save _ _ _ Hs); cbn [p_likes set_comments];
  match goal with
  | H : findById _ s = Some _ |- _ =>
      apply findById_lookup in H; now apply Hs in H
  end.
Qed.

Lemma delete_photo_keeps : keeps_likes_unique delete_photo.
Proof.
  intros w req s Hs.
  unfold delete_photo, try_catch, try_bind, req_user_id.
  branches; simplify_eq; try assumption;
    now apply likes_unique_delete.
Qed.

Lemma run_stack_keeps ms h :
  keeps_likes_unique h -> keeps_likes_unique (run_stack ms h).
Proof.
  intros Hh. induction ms as [|m ms IH]; intros w req s Hs; simpl.
  - now apply Hh.
  - destruct (m w req) as [res | req']; [exact Hs | now apply IH].
Qed.

Lemma dispatch_keeps routes :
  Forall (fun r => keeps_likes_unique (r_handler r)) routes ->
  keeps_likes_unique (dispatch routes).
Proof.
  induction 1 as [|r routes Hr _ IH]; intros w req s Hs; simpl.
  - exact Hs.
  - destruct (bool_decide (method req = r_method r)); [| now apply IH].
    destruct (match_path (r_path r) (path req)); [| now apply IH].
    now apply run_stack_keeps.
Qed.

Lemma server_keeps : keeps_likes_unique (server lib secret).
Proof.
  apply dispatch_keeps. unfold app.
  repeat apply Forall_cons_2; try apply Forall_nil_2; cbn [r_handler].
  - apply signup_keeps.
  - apply login_keeps.
  - apply upload_keeps.
  - apply get_photos_keeps.
  - apply post_comment_populated_keeps.
  - apply put_description_keeps.
  - apply post_like_keeps.
  - apply post_comment_keeps.
  - apply delete_comment_keeps.
  - apply delete_photo_keeps.
Qed.

Lemma reachable_likes_unique s : reachable lib secret s -> likes_unique s.
Proof.
  induction 1 as [| w req s _ IH].
  - intros pid p. unfold empty_store. cbn [photos].
    now rewrite lookup_empty.
  - now apply server_keeps.
Qed.

(** C8. In every photo the likes hold each user at most once: every
    request the server handles keeps it so, every store the server can
    reach has it, and the like toggle keeps it (it adds the caller only
    when the caller is not among the likes). *)
Theorem likes_hold_each_user_once :
  (forall w req s,
     likes_unique s -> likes_unique (snd (server lib secret w req s)))
  /\ (forall s, reachable lib secret s -> likes_unique s)
  /\ (forall w req s pid p uid,
        findById (param "id" req) s = Some (pid, p) ->
        req_user_id req = inr uid ->
        likes_unique s ->
        exists p',
          photos (snd (post_like w req s)) !! pid = Some p'
          /\ NoDup (p_likes p')
          /\ (uid ∈ p_likes p -> uid ∉ p_likes p')
          /\ (uid ∉ p_likes p -> p_likes p' = (p_likes p ++ [uid])%list)).
Proof.
  split_and!.
  - apply server_keeps.
  - apply reachable_likes_unique.
  - intros w req s pid p uid Hf Hu Hs.
    pose proof (post_like_keeps w req s Hs) as Hk. revert Hk.
    unfold post_like. rewrite Hf. unfold try_catch, try_bind.
    rewrite Hu. cbn [snd]. intros Hk.
    eexists. split; [apply lookup_insert_eq |].
    split; [apply (Hk pid); apply lookup_insert_eq |].
    destruct (includes uid (p_likes p)) eqn:E; cbn [p_likes set_likes].
    + split; [intros _ | intros Hn; apply includes_true in E; contradiction].
      rewrite elem_of_pull. tauto.
    + split; [intros Hin; apply includes_false in E; contradiction |].
      reflexivity.
Qed.
End Invariant.

(** ** Signup and login *)

Lemma find_app_absent {A} (f : A -> bool) (l : list A) (x : A) :
  existsb f l = false -> f x = true -> List.find f (l ++ [x]) = Some x.
Proof.
  induction l as [|y l IH]; simpl; intros H Hx.
  - now rewrite Hx.
  - apply orb_false_iff in H as [Hy Hl]. rewrite Hy. now apply IH.
Qed.

Section Accounts.
Variable lib : Lib.
Variable secret : string.

(** A signup that succeeds has stored the user of the request. *)
Lemma signup_success w req s :
  status (fst (signup lib w req s)) = 200 ->
  exists pw,
    b_password (body req) = Some pw
    /\ existsb (fun v => bool_decide (u_email v = b_email (body req)))
         (users s) = false
    /\ snd (signup lib w req s)
       = set_users
           (users s ++ [{| u_id := fresh w;
                           u_username := b_username (body req);
                           u_email := b_email (body req);
                           u_password := bcrypt_kdf lib pw 10 (salt w) |}])
           s.
Proof.
  unfold signup, try_catch, try_bind, bcrypt_hash, save_user.
  destruct (b_password (body req)) as [pw |]; [| discriminate].
  cbn [u_id u_email].
  destruct (existsb _ (users s)); [discriminate |].
  destruct (existsb _ (users s)) eqn:E; [discriminate |].
  intros _. now exists pw.
Qed.

(** A signup whose email is taken fails and stores nothing. *)
Lemma signup_duplicate w req s :
  existsb (fun v => bool_decide (u_email v = b_email (body req))) (users s)
  = true ->
  signup lib w req s
  = ({| status := 500;
        json := JError
          match b_password (body req) with
          | None => "data and salt arguments required"
          | Some _ =>
              if existsb (fun v => string_eqb (u_id v) (fresh w)) (users s)
              then "E11000 duplicate key error: _id"
              else "E11000 duplicate key error: email"
          end |}, s).
Proof.
  intros Hdup.
  unfold signup, try_catch, try_bind, bcrypt_hash, save_user.
  destruct (b_password (body req)); [| reflexivity].
  cbn [u_id u_email]. rewrite Hdup.
  destruct (existsb (fun v => string_eqb (u_id v) (fresh w)) (users s));
    reflexivity.
Qed.

(** C4. Of two signup requests with the same email, the first of which
    succeeded, the second fails (500) and leaves the store as the first
    left it: the record of the first user, with its username, email and
    password hash, is the one found under the email.  The error is the
    duplicate key error of the email index when the second request has
    a password to hash and its new [_id] is not taken. *)
Theorem duplicate_email_signup_rejected w1 w2 req1 req2 s :
  method req1 = POST -> path req1 = ["signup"] ->
  method req2 = POST -> path req2 = ["signup"] ->
  b_email (body req2) = b_email (body req1) ->
  status (fst (server lib secret w1 req1 s)) = 200 ->
  let s1 := snd (server lib secret w1 req1 s) in
  let r2 := server lib secret w2 req2 s1 in
  status (fst r2) = 500
  /\ snd r2 = s1
  /\ (forall pw2,
        b_password (body req2) = Some pw2 ->
        (forall u, u ∈ users s1 -> u_id u <> fresh w2) ->
        json (fst r2) = JError "E11000 duplicate key error: email")
  /\ exists pw1,
       b_password (body req1) = Some pw1
       /\ findOne_email (b_email (body req1)) (users (snd r2))
          = Some {| u_id := fresh w1;
                    u_username := b_username (body req1);
                    u_email := b_email (body req1);
                    u_password := bcrypt_kdf lib pw1 10 (salt w1) |}.
Proof.
  intros Hm1 Hp1 Hm2 Hp2 He.
  rewrite (route_signup _ _ _ _ _ Hm1 Hp1).
  intros (pw1 & Hpw1 & Hnew & Hs1)%signup_success.
  cbn [body set_params] in Hpw1, Hnew, Hs1.
  intros s1 r2. subst r2 s1. rewrite Hs1.
  rewrite (route_signup _ _ _ _ _ Hm2 Hp2).
  set (u1 := {| u_id := fresh w1 |}).
  rewrite signup_duplicate.
  2:{ cbn [body set_params users set_users].
      rewrite existsb_app. apply orb_true_iff. right. simpl.
      rewrite He. now rewrite bool_decide_eq_true_2. }
  cbn [fst snd status json body set_params users set_users].
  split_and!; [reflexivity | reflexivity | |].
  - intros pw2 Hpw2 Hfresh. rewrite Hpw2.
    destruct (existsb (fun v => string_eqb (u_id v) (fresh w2))
                (users s ++ [u1])) eqn:E; [| reflexivity].
    apply existsb_exists in E as (u & Hu & E).
    apply string_eqb_true in E. apply list_elem_of_In in Hu.
    now apply Hfresh in Hu.
  - exists pw1. split; [exact Hpw1 |].
    unfold findOne_email. apply find_app_absent; [exact Hnew |].
    now apply bool_decide_eq_true_2.
Qed.
End Accounts.

Section Sessions.
Variable lib : Lib.
Variable secret : string.

(** C5, as the code has it.  A login whose password does not verify is
    answered 400 in both cases, with a message that tells them apart:
    "User not found" when no user has the email, "Invalid credentials"
    when the user is there and the password does not match its hash. *)
Theorem login_failure_kinds w req s :
  method req = POST -> path req = ["login"] ->
  (findOne_email (b_email (body req)) (users s) = None ->
     server lib secret w req s
     = ({| status := 400; json := JMessage false "User not found" |}, s))
  /\ (forall u pw,
        findOne_email (b_email (body req)) (users s) = Some u ->
        b_password (body req) = Some pw ->
        bcrypt_check lib pw (u_password u) = false ->
        server lib secret w req s
        = ({| status := 400; json := JMessage false "Invalid credentials" |},
           s)).
Proof.
  intros Hm Hp. rewrite (route_login _ _ _ _ _ Hm Hp).
  unfold login, try_catch, try_bind, bcrypt_compare.
  cbn [body set_params]. split.
  - intros Hn. now rewrite Hn.
  - intros u pw Hu Hpw Hc. now rewrite Hu, Hpw, Hc.
Qed.

Hypothesis contract : jwt_contract lib.
Hypothesis configured : secret <> "".

Lemma sign_nonempty uid span now token :
  jwt_sign lib uid secret span now = inr token -> token <> "".
Proof.
  unfold jwt_sign, Jwt.sign. destruct (string_eqb secret ""); [discriminate |].
  intros [= <-]. unfold Jwt.header_segment.
  rewrite !string_app_assoc, app_cons. discriminate.
Qed.

(** The gate on a token that was issued: let in until it expires. *)
Lemma auth_issued uid span now token w req :
  jwt_sign lib uid secret span now = inr token ->
  authorization req = Some token ->
  authMiddleware lib secret w req
  = let c := {| Jwt.id := uid; Jwt.iat := now;
                Jwt.exp := now + Jwt.timespan_seconds span |} in
    if (Jwt.exp c <=? seconds w)%Z then inl invalid_token
    else inr (set_user c req).
Proof.
  intros Hsign Hauth.
  destruct (verify_sign lib secret contract configured uid span now
              (seconds w)) as (t & Ht & Hv).
  rewrite Hsign in Ht. injection Ht as <-.
  unfold authMiddleware. rewrite Hauth.
  apply sign_nonempty, string_eqb_false in Hsign as ->.
  rewrite Hv. cbv zeta. cbn [Jwt.exp].
  now destruct (now + Jwt.timespan_seconds span <=? seconds w)%Z.
Qed.

(** C6. A login with the email and the password of a registered user
    returns a token signed with the secret of the server.  The gate
    accepts that token and recovers the id of the user from it: the
    request goes on as it came, with [req.user] the claims of the token,
    whose [id] is the id of that user, so that the user is the caller of
    the request.  The token is good for two hours (7200 seconds of the
    token clock) and no longer: from then on the answer is 403. *)
Theorem login_token_round_trip w req s u pw :
  method req = POST -> path req = ["login"] ->
  findOne_email (b_email (body req)) (users s) = Some u ->
  b_password (body req) = Some pw ->
  bcrypt_check lib pw (u_password u) = true ->
  exists token,
    server lib secret w req s
    = ({| status := 200;
          json := JLogin token (u_id u) (u_username u) |}, s)
    /\ jwt_sign lib (u_id u) secret (Jwt.Hours 2) (seconds w) = inr token
    /\ forall w' req',
         authorization req' = Some token ->
         (seconds w' < seconds w + 7200 ->
            authMiddleware lib secret w' req'
            = inr {| method := method req'; path := path req';
                     authorization := Some token; body := body req';
                     file := file req'; params := params req';
                     user := Some {| Jwt.id := u_id u;
                                     Jwt.iat := seconds w;
                                     Jwt.exp := seconds w + 7200 |} |}
            /\ caller_of lib secret w' req' = Some (u_id u))
         /\ (seconds w + 7200 <= seconds w' ->
               authMiddleware lib secret w' req'
               = inl {| status := 403;
                        json := JMessage false "Invalid token" |}
               /\ caller_of lib secret w' req' = None).
Proof.
  intros Hm Hp Hu Hpw Hc.
  destruct (verify_sign lib secret contract configured (u_id u)
              (Jwt.Hours 2) (seconds w) 0) as (token & Hsign & _).
  exists token. split_and!.
  - rewrite (route_login _ _ _ _ _ Hm Hp).
    unfold login, try_catch, try_bind, bcrypt_compare.
    cbn [body set_params]. now rewrite Hu, Hpw, Hc, Hsign.
  - exact Hsign.
  - intros w' req' Hauth. unfold caller_of.
    rewrite (auth_issued _ _ _ _ w' req' Hsign Hauth).
    cbv zeta. cbn [Jwt.exp Jwt.timespan_seconds].
    change (2 * 3600) with 7200.
    split; intros Ht.
    + rewrite (proj2 (Z.leb_gt _ _) Ht). unfold set_user.
      rewrite Hauth. split; reflexivity.
    + rewrite (proj2 (Z.leb_le _ _) Ht). split; reflexivity.
Qed.

(** C10. The gate hands the whole [authorization] header to the
    verifier: without the header the answer is 401; a header
    [Bearer <token>] is answered 403, whatever the token; the bare
    token that [/login] issued is accepted as the whole header, while
    it has not expired. *)
Theorem bearer_prefix_rejected w req :
  (authorization req = None ->
     authMiddleware lib secret w req = inl no_token)
  /\ (forall t,
        authorization req = Some ("Bearer " +:+ t) ->
        authMiddleware lib secret w req = inl invalid_token)
  /\ (forall uid now token,
        jwt_sign lib uid secret (Jwt.Hours 2) now = inr token ->
        authorization req = Some token ->
        seconds w < now + 7200 ->
        authMiddleware lib secret w req
        = inr (set_user {| Jwt.id := uid; Jwt.iat := now;
                           Jwt.exp := now + 7200 |} req)).
Proof.
  split_and!.
  - intros Hn. unfold authMiddleware. now rewrite Hn.
  - intros t Ht. unfold authMiddleware. rewrite Ht.
    rewrite app_cons. cbn [string_eqb]. 
    destruct (verify_bearer lib t secret (seconds w)) as (e & He).
    rewrite app_cons in He. rewrite He.
    now rewrite (proj2 (string_eqb_false _ _)).
  - intros uid now token Hsign Hauth Ht.
    rewrite (auth_issued _ _ _ _ w req Hsign Hauth).
    cbv zeta. cbn [Jwt.exp Jwt.timespan_seconds].
    change (2 * 3600) with 7200.
    now rewrite (proj2 (Z.leb_gt _ _) Ht).
Qed.
End Sessions.

(** ** Upload and comments *)

Section Uploads.
Variable lib : Lib.
Variable secret : string.

(** The description a new photo gets: [req.body.description || ""]. *)
Lemma upload_found w req s c f :
  file req = Some f ->
  upload w (set_params [] (set_user c req)) s
  = match cloud w f with
    | inl e => ({| status := 500; json := JErrorObject e |}, s)
    | inr url =>
        let p := {| p_url := url;
                    p_description :=
                      Some (match b_description (body req) with
                            | Some d => if string_eqb d "" then "" else d
                            | None => ""
                            end);
                    p_user := Jwt.id c; p_likes := []; p_comments := [];
                    p_createdAt := date_now w |} in
        match photos s !! fresh w with
        | Some _ =>
            ({| status := 500;
                json := JErrorObject
                          (Error "E11000 duplicate key error: _id") |}, s)
        | None =>
            (res_json (JPhoto (photo_view (fresh w) p)),
             set_photos (<[fresh w := p]> (photos s)) s)
        end
    end.
Proof.
  intros Hf. unfold upload, try_catch, try_bind, insert_photo.
  cbn [file set_params set_user]. rewrite Hf.
  destruct (cloud w f) as [e | url]; [reflexivity |].
  cbn [req_user_id user set_params set_user body date_now].
  now destruct (photos s !! fresh w).
Qed.

(** C7. When the upload to the media host fails, the upload request
    fails (500) and the store is as before.  A photo is stored only
    after an upload that returned a URL: whenever the request changes
    the store, the upload has succeeded and the change is one new photo
    whose url is the URL returned; and after a successful upload, with
    a new id, that photo is stored. *)
Theorem upload_persists_only_after_success w req s c :
  authenticated lib secret w req c ->
  method req = POST -> path req = ["upload"] ->
  let r := server lib secret w req s in
  (forall f e, file req = Some f -> cloud w f = inl e ->
     r = ({| status := 500; json := JErrorObject e |}, s))
  /\ (file req = None -> status (fst r) = 500 /\ snd r = s)
  /\ (snd r <> s ->
        exists f url p,
          file req = Some f /\ cloud w f = inr url
          /\ p_url p = url /\ p_user p = Jwt.id c
          /\ photos s !! fresh w = None
          /\ snd r = set_photos (<[fresh w := p]> (photos s)) s
          /\ fst r = res_json (JPhoto (photo_view (fresh w) p)))
  /\ (forall f url, file req = Some f -> cloud w f = inr url ->
        photos s !! fresh w = None ->
        status (fst r) = 200
        /\ exists p, photos (snd r) !! fresh w = Some p /\ p_url p = url).
Proof.
  intros Ha Hm Hp r. subst r.
  rewrite (route_upload _ _ _ _ _ Hm Hp).
  cbn [run_stack]. rewrite auth_params, (auth_accepts _ _ _ _ _ Ha).
  unfold upload_single.
  split_and!.
  - intros f e Hf He. rewrite (upload_found _ _ _ _ _ Hf). now rewrite He.
  - intros Hf. unfold upload, try_catch, try_bind.
    cbn [file set_params set_user]. now rewrite Hf.
  - destruct (file req) as [f |] eqn:Hf.
    + rewrite (upload_found _ _ _ _ _ Hf).
      destruct (cloud w f) as [e | url] eqn:Hc; [now intros [] |].
      cbv zeta. destruct (photos s !! fresh w) eqn:Hn; [now intros [] |].
      intros _. exists f, url. eexists. split_and!.
      6: reflexivity. all: first [reflexivity | assumption].
    + unfold upload, try_catch, try_bind.
      cbn [file set_params set_user]. rewrite Hf. now intros [].
  - intros f url Hf Hu Hn. rewrite (upload_found _ _ _ _ _ Hf).
    rewrite Hu. cbv zeta. rewrite Hn. split; [reflexivity |].
    eexists. split; [apply lookup_insert_eq | reflexivity].
Qed.

(** The two comment handlers, side by side: the same store, the same
    status, and the comments of the first are those of the second with
    the authors populated. *)
Lemma comment_handlers_agree w req s :
  snd (post_comment_populated w req s) = snd (post_comment w req s)
  /\ status (fst (post_comment_populated w req s))
     = status (fst (post_comment w req s))
  /\ json (fst (post_comment_populated w req s))
     = with_authors (users s) (json (fst (post_comment w req s))).
Proof.
  unfold post_comment_populated, post_comment, try_catch, try_bind.
  destruct (findById (param "id" req) s) as [[pid p] |] eqn:Hf;
    [| now split_and!].
  destruct (req_user_id req) as [e | uid]; [now split_and! |].
  assert (Hid : param "id" req = Some pid).
  { unfold findById in Hf. destruct (param "id" req) as [i |]; [| discriminate].
    destruct (photos s !! i); [| discriminate]. now injection Hf as -> _. }
  rewrite Hid. unfold findById, save_photo. cbn [photos set_photos].
  rewrite lookup_insert_eq. cbn [fst snd status json res_json].
  split_and!; reflexivity.
Qed.

End Uploads.

(** ** The sample primitives meet the contract *)

Lemma string_forallb_app (f : ascii -> bool) (a b : string) :
  string_forallb f (a +:+ b) = string_forallb f a && string_forallb f b.
Proof.
  induction a as [|x a IH]; [reflexivity |].
  rewrite app_cons. simpl. now rewrite IH, andb_assoc.
Qed.

Lemma app_nonempty (a : string) (c : ascii) (r : string) :
  a +:+ String c r <> "".
Proof. destruct a; [rewrite app_nil | rewrite app_cons]; discriminate. Qed.

Section SampleCodec.
Variable f : ascii -> bool.
Hypothesis f_I : f "I" = true.
Hypothesis f_O : f "O" = true.

Lemma sample_bit_ok (b : bool) : f (Sample.bit b) = true.
Proof. now destruct b. Qed.

Lemma sample_enc_string_ok (s : string) :
  string_forallb f (Sample.enc_string s) = true.
Proof.
  induction s as [|[b0 b1 b2 b3 b4 b5 b6 b7] s IH]; [reflexivity |].
  cbn [Sample.enc_string string_forallb].
  now rewrite !sample_bit_ok, IH.
Qed.

Hypothesis f_H : f "H" = true.

Lemma sample_enc_pos_ok (p : positive) :
  string_forallb f (Sample.enc_pos p) = true.
Proof.
  induction p as [p IH | p IH |]; cbn [Sample.enc_pos string_forallb].
  - now rewrite f_I, IH.
  - now rewrite f_O, IH.
  - now rewrite f_H.
Qed.

Hypothesis f_z : f "z" = true.
Hypothesis f_p : f "p" = true.
Hypothesis f_n : f "n" = true.

Lemma sample_enc_Z_ok (z : Z) : string_forallb f (Sample.enc_Z z) = true.
Proof.
  destruct z as [| p | p]; cbn [Sample.enc_Z string_forallb].
  - now rewrite f_z.
  - now rewrite f_p, sample_enc_pos_ok.
  - now rewrite f_n, sample_enc_pos_ok.
Qed.
End SampleCodec.

Lemma sample_unbit_bit (b : bool) : Sample.unbit (Sample.bit b) = Some b.
Proof. now destruct b. Qed.

Lemma sample_dec_enc_string (s : string) :
  Sample.dec_string (Sample.enc_string s) = Some s.
Proof.
  induction s as [|[b0 b1 b2 b3 b4 b5 b6 b7] s IH]; [reflexivity |].
  cbn [Sample.enc_string Sample.dec_string].
  now rewrite !sample_unbit_bit, IH.
Qed.

Lemma sample_dec_enc_pos (p : positive) :
  Sample.dec_pos (Sample.enc_pos p) = Some p.
Proof.
  induction p as [p IH | p IH |]; cbn [Sample.enc_pos Sample.dec_pos].
  - change (Ascii.eqb "I" "H") with false.
    change (Ascii.eqb "I" "O") with false.
    change (Ascii.eqb "I" "I") with true. cbv iota. now rewrite IH.
  - change (Ascii.eqb "O" "H") with false.
    change (Ascii.eqb "O" "O") with true. cbv iota. now rewrite IH.
  - reflexivity.
Qed.

Lemma sample_dec_enc_Z (z : Z) : Sample.dec_Z (Sample.enc_Z z) = Some z.
Proof.
  destruct z as [| p | p]; [reflexivity | |];
    cbn [Sample.enc_Z Sample.dec_Z].
  - change (Ascii.eqb "p" "z") with false.
    change (Ascii.eqb "p" "p") with true. cbv iota.
    now rewrite sample_dec_enc_pos.
  - change (Ascii.eqb "n" "z") with false.
    change (Ascii.eqb "n" "p") with false.
    change (Ascii.eqb "n" "n") with true. cbv iota.
    now rewrite sample_dec_enc_pos.
Qed.

Lemma sample_contract : jwt_contract Sample.lib.
Proof.
  split_and!; cbn [Sample.lib encode_claims decode_claims hmac].
  - intros [i t e]. unfold Sample.decode, Sample.encode.
    cbn [Jwt.id Jwt.iat Jwt.exp].
    rewrite !app_cons, !app_nil.
    rewrite split_on_app by now apply sample_enc_string_ok.
    rewrite split_on_app by now apply sample_enc_Z_ok.
    rewrite split_on_absent by now apply sample_enc_Z_ok.
    now rewrite sample_dec_enc_string, !sample_dec_enc_Z.
  - intros c. unfold Jwt.b64url_segment, Sample.encode.
    apply andb_true_iff. split.
    + apply negb_true_iff, string_eqb_false.
      rewrite !app_cons, !app_nil. apply app_nonempty.
    + unfold Jwt.b64url. rewrite !string_forallb_app.
      rewrite sample_enc_string_ok, !sample_enc_Z_ok by reflexivity.
      reflexivity.
  - intros k m. unfold Jwt.b64url_segment, Sample.mac.
    apply andb_true_iff. split; [reflexivity |].
    unfold Jwt.b64url. cbn [string_forallb].
    now rewrite sample_enc_string_ok.
Qed.

Lemma sample_configured : Sample.secret <> "".
Proof. discriminate. Qed.

(** ** The properties on the sample *)

Lemma sample_authenticated uid m p b :
  uid = "a1" \/ uid = "b2" ->
  authenticated Sample.lib Sample.secret Sample.later
    (Sample.as_user uid m p b) (Sample.claims_of uid).
Proof.
  intros H. exists (Sample.token_of uid 5000). split; [reflexivity |].
  destruct H as [-> | ->]; vm_compute; reflexivity.
Defined.

Lemma sample_likes_unique : likes_unique Sample.store1.
Proof.
  intros pid p. unfold Sample.store1. cbn [photos].
  intros [_ <-]%lookup_singleton_Some. cbn [p_likes Sample.photo1].
  apply NoDup_singleton.
Defined.

(** The user [ann] describes her first photo anew: the photo is stored
    with the new description, the other photos are as they were. *)
Lemma owner_only_update_and_delete_witness :
  let s' := snd (server Sample.lib Sample.secret Gallery.now
                   (Gallery.as_user Gallery.ann_id PUT
                      ["photos"; Gallery.photo1_id; "description"]
                      (Sample.describe "sunset"))
                   Gallery.store) in
  p_description <$> (photos s' !! Gallery.photo1_id) = Some (Some "sunset")
  /\ photos s' !! Gallery.photo2_id = Some Gallery.photo2.
Proof.
  intros s'.
  assert (Hrun : s' = {| users := users Gallery.store;
                         photos :=
                           <[Gallery.photo1_id :=
                               {| p_url := p_url Gallery.photo1;
                                  p_description := Some "sunset";
                                  p_user := p_user Gallery.photo1;
                                  p_likes := p_likes Gallery.photo1;
                                  p_comments := p_comments Gallery.photo1;
                                  p_createdAt := p_createdAt Gallery.photo1 |}]>
                             (photos Gallery.store) |}).
  { subst s'.
    rewrite (proj1 (proj2 (proj2 (owner_only_update_and_delete
               Sample.lib Sample.secret Gallery.now
               (Gallery.as_user Gallery.ann_id PUT
                  ["photos"; Gallery.photo1_id; "description"]
                  (Sample.describe "sunset"))
               Gallery.store Gallery.photo1_id
               (Sample.claims_of Gallery.ann_id)
               ltac:(exists (Sample.token_of Gallery.ann_id 5000);
                     split; [reflexivity | vm_compute; reflexivity])
               ltac:(vm_compute; reflexivity)
               (or_introl (conj eq_refl eq_refl))))
             Gallery.photo1
             ltac:(vm_compute; reflexivity) eq_refl) eq_refl).
    reflexivity. }
  rewrite Hrun. vm_compute. split; reflexivity.
Defined.



(** Two signups with the email of the example: the second is refused. *)
Lemma duplicate_email_signup_rejected_witness :
  let signup_a := Sample.request POST ["signup"] None
                    (Sample.credentials "a" "a@x.com" "pw") in
  let signup_b := Sample.request POST ["signup"] None
                    (Sample.credentials "b" "a@x.com" "pw2") in
  let s1 := snd (server Sample.lib Sample.secret
                   (Sample.world 1000 "salt" "a1") signup_a empty_store) in
  let r2 := server Sample.lib Sample.secret
              (Sample.world 2000 "salt" "b2") signup_b s1 in
  status (fst r2) = 500
  /\ snd r2 = s1
  /\ json (fst r2) = JError "E11000 duplicate key error: email".
Proof.
  intros signup_a signup_b s1 r2.
  destruct (duplicate_email_signup_rejected Sample.lib Sample.secret
              (Sample.world 1000 "salt" "a1") (Sample.world 2000 "salt" "b2")
              signup_a signup_b empty_store
              eq_refl eq_refl eq_refl eq_refl eq_refl
              ltac:(vm_compute; reflexivity))
    as (H1 & H2 & H3 & _).
  split; [exact H1 |]. split; [exact H2 |].
  apply (H3 "pw2" eq_refl).
  intros u [-> | []%elem_of_nil]%elem_of_cons. vm_compute. discriminate.
Defined.

(** C5, the claim on the code: two logins whose password does not verify,
    one for an email nobody has, one for the email of the user [a] with a
    wrong password.  The answers are not the same: the first says that
    there is no such user. *)
Lemma login_unknown_email_is_told :
  let unknown := Sample.request POST ["login"] None
                   (Sample.credentials "c" "c@x.com" "pw") in
  let wrong := Sample.request POST ["login"] None
                 (Sample.credentials "a" "a@x.com" "guess") in
  let r_unknown := fst (server Sample.lib Sample.secret Sample.later unknown
                          Sample.store1) in
  let r_wrong := fst (server Sample.lib Sample.secret Sample.later wrong
                        Sample.store1) in
  findOne_email (Some "c@x.com") (users Sample.store1) = None
  /\ findOne_email (Some "a@x.com") (users Sample.store1) = Some Sample.alice
  /\ Sample.check "guess" (u_password Sample.alice) = false
  /\ r_unknown = {| status := 400; json := JMessage false "User not found" |}
  /\ r_wrong = {| status := 400; json := JMessage false "Invalid credentials" |}
  /\ r_unknown <> r_wrong.
Proof.
  vm_compute. split_and!; try reflexivity. discriminate.
Qed.

Lemma login_failure_kinds_witness :
  server Sample.lib Sample.secret Sample.later
    (Sample.request POST ["login"] None
       (Sample.credentials "a" "a@x.com" "guess"))
    Sample.store1
  = ({| status := 400; json := JMessage false "Invalid credentials" |},
     Sample.store1).
Proof.
  apply (proj2 (login_failure_kinds Sample.lib Sample.secret Sample.later
                  (Sample.request POST ["login"] None
                     (Sample.credentials "a" "a@x.com" "guess"))
                  Sample.store1 eq_refl eq_refl) Sample.alice "guess").
  - vm_compute. reflexivity.
  - reflexivity.
  - vm_compute. reflexivity.
Defined.

(** The user [ann] logs in at clock 5000; at clock 6000 the gate lets the
    token in and the request goes on with [req.user.id] the id of
    [ann]. *)
Lemma login_token_round_trip_witness :
  exists token req',
    fst (server Sample.lib Sample.secret (Sample.world 5000 "salt" "n0")
           (Sample.request POST ["login"] None
              (Sample.credentials "ann" "ann@x.com" "pw"))
           Gallery.store)
    = res_json (JLogin token Gallery.ann_id (Some "ann"))
    /\ authMiddleware Sample.lib Sample.secret Gallery.now
         (Sample.request GET ["photos"] (Some token) Sample.no_body)
       = inr req'
    /\ Jwt.id <$> user req' = Some Gallery.ann_id
    /\ req_user_id req' = inr Gallery.ann_id.
Proof.
  destruct (login_token_round_trip Sample.lib Sample.secret
              sample_contract sample_configured
              (Sample.world 5000 "salt" "n0")
              (Sample.request POST ["login"] None
                 (Sample.credentials "ann" "ann@x.com" "pw"))
              Gallery.store Gallery.ann "pw"
              eq_refl eq_refl
              ltac:(vm_compute; reflexivity) eq_refl
              ltac:(vm_compute; reflexivity))
    as (token & Hres & _ & Hgate).
  exists token. eexists. split; [now rewrite Hres |].
  split; [| split].
  - apply (Hgate Gallery.now
             (Sample.request GET ["photos"] (Some token) Sample.no_body)
             eq_refl).
    vm_compute. reflexivity.
  - reflexivity.
  - reflexivity.
Defined.

(** The media host is down: the upload of the user [a] fails and the
    store is as before. *)
Lemma upload_persists_only_after_success_witness :
  server Sample.lib Sample.secret (Sample.world_down 6000 "n1")
    (Sample.with_file "/tmp/2.png"
       (Sample.as_user "a1" POST ["upload"] (Sample.describe "second")))
    Sample.store1
  = ({| status := 500; json := JErrorObject (Error "connect ETIMEDOUT") |},
     Sample.store1).
Proof.
  apply (proj1 (upload_persists_only_after_success Sample.lib Sample.secret
                  (Sample.world_down 6000 "n1")
                  (Sample.with_file "/tmp/2.png"
                     (Sample.as_user "a1" POST ["upload"]
                        (Sample.describe "second")))
                  Sample.store1 (Sample.claims_of "a1")
                  ltac:(exists (Sample.token_of "a1" 5000);
                        split; [reflexivity | vm_compute; reflexivity])
                  eq_refl eq_refl)
           "/tmp/2.png" (Error "connect ETIMEDOUT") eq_refl eq_refl).
Defined.

Lemma likes_hold_each_user_once_witness :
  likes_unique
    (snd (server Sample.lib Sample.secret Sample.later
            (Sample.as_user "a1" POST ["photos"; "p1"; "like"] Sample.no_body)
            Sample.store1)).
Proof.
  apply (proj1 (likes_hold_each_user_once Sample.lib Sample.secret)).
  exact sample_likes_unique.
Defined.



(** The token of the user [a] behind [Bearer ]: 403. *)
Lemma bearer_prefix_rejected_witness :
  authMiddleware Sample.lib Sample.secret Sample.later
    (Sample.request GET ["photos"]
       (Some ("Bearer " +:+ Sample.token_of "a1" 5000)) Sample.no_body)
  = inl invalid_token.
Proof.
  apply (proj1 (proj2 (bearer_prefix_rejected Sample.lib Sample.secret
                         sample_contract sample_configured Sample.later
                         (Sample.request GET ["photos"]
                            (Some ("Bearer " +:+ Sample.token_of "a1" 5000))
                            Sample.no_body)))
           (Sample.token_of "a1" 5000) eq_refl).
Defined.

(** The example of the spec, run on the sample: [a] and [b] sign up, [a]
    logs in and uploads a photo, which [a] then owns; [b] may not change
    its description. *)
Example signup_login_upload_forbidden :
  let signup_a := Sample.request POST ["signup"] None
                    (Sample.credentials "a" "a@x.com" "pw") in
  let signup_b := Sample.request POST ["signup"] None
                    (Sample.credentials "b" "b@x.com" "pw2") in
  let login_a := Sample.request POST ["login"] None
                   (Sample.credentials "a" "a@x.com" "pw") in
  let run := server Sample.lib Sample.secret in
  let s1 := snd (run (Sample.world 1000 "salt" "a1") signup_a empty_store) in
  let s2 := snd (run (Sample.world 2000 "salt" "b2") signup_b s1) in
  let r3 := run (Sample.world 5000 "salt" "n0") login_a s2 in
  let r4 := run (Sample.world 6000 "salt" "p1")
              (Sample.with_file "1.png"
                 (Sample.as_user "a1" POST ["upload"] (Sample.describe "first")))
              (snd r3) in
  let r5 := run Sample.later
              (Sample.as_user "b2" PUT ["photos"; "p1"; "description"]
                 (Sample.describe "mine"))
              (snd r4) in
  users s2 = [Sample.alice; Sample.bob]
  /\ json (fst r3) = JLogin (Sample.token_of "a1" 5000) "a1" (Some "a")
  /\ status (fst r4) = 200
  /\ p_user <$> (photos (snd r4) !! "p1") = Some "a1"
  /\ fst r5 = not_allowed
  /\ snd r5 = snd r4.
Proof. vm_compute. split_and!; reflexivity. Qed.

(** * Properties of the whole server *)

(** ** Every route at once *)

Section Dispatch.
Variable lib : Lib.
Variable secret : string.

(** What holds of an answer that leaves the store alone, and of every
    route behind its stack, holds of the server. *)
Lemma dispatch_all (P : World -> Request -> Store -> Response * Store -> Prop)
    (routes : list Route) :
  (forall w req s res, P w req s (res, s)) ->
  Forall (fun r => forall w req s ps,
            P w req s
              (run_stack (r_stack r) (r_handler r) w (set_params ps req) s))
    routes ->
  forall w req s, P w req s (dispatch routes w req s).
Proof.
  intros Hnone. induction 1 as [|r routes Hr _ IH]; intros w req s; simpl.
  - apply Hnone.
  - destruct (bool_decide (method req = r_method r)); [| apply IH].
    destruct (match_path (r_path r) (path req)); [| apply IH].
    apply Hr.
Qed.

Lemma auth_passes w req req' :
  authMiddleware lib secret w req = inr req' ->
  exists c, authenticated lib secret w req c /\ req' = set_user c req.
Proof.
  unfold authMiddleware.
  destruct (authorization req) as [t |] eqn:Ht; [| discriminate].
  destruct (string_eqb t ""); [discriminate |].
  destruct (jwt_verify lib t secret (seconds w)) as [e | c] eqn:Hv;
    [discriminate |].
  intros [= <-]. exists c. split; [| reflexivity]. now exists t.
Qed.

Lemma caller_of_params w req ps :
  caller_of lib secret w (set_params ps req) = caller_of lib secret w req.
Proof.
  unfold caller_of. rewrite auth_params.
  now destruct (authMiddleware lib secret w req).
Qed.

Lemma caller_of_authenticated w req c :
  authenticated lib secret w req c ->
  caller_of lib secret w req = Some (Jwt.id c).
Proof.
  intros Ha. unfold caller_of. now rewrite (auth_accepts _ _ _ _ _ Ha).
Qed.

(** Behind the gate, a handler that acts for [req.user] acts for the
    caller the gate has found. *)
Lemma protected_change (h : Handler) w req s ps :
  acts_for_user h ->
  change (caller_of lib secret w req) w s
    (snd (run_stack [authMiddleware lib secret] h w (set_params ps req) s)).
Proof.
  intros Hh. rewrite <- (caller_of_params w req ps).
  unfold caller_of. cbn [run_stack].
  destruct (authMiddleware lib secret w (set_params ps req)) as [res | req'].
  - apply change_none.
  - apply Hh.
Qed.
End Dispatch.

(** ** What each handler does to the store *)

Lemma signup_change lib caller w r s :
  change caller w s (snd (signup lib w r s)).
Proof.
  unfold signup, try_catch, try_bind, bcrypt_hash, save_user.
  branches; simplify_eq; try apply change_none.
  apply change_signup. reflexivity.
Qed.

Lemma login_change lib secret caller w r s :
  change caller w s (snd (login lib secret w r s)).
Proof.
  unfold login, try_catch, try_bind, bcrypt_compare.
  branches; simplify_eq; apply change_none.
Qed.

Lemma upload_acts : acts_for_user upload.
Proof.
  intros w r s.
  unfold upload, try_catch, try_bind, insert_photo, req_user_id.
  branches; simplify_eq; try apply change_none;
    now eapply change_upload.
Qed.

Lemma get_photos_acts : acts_for_user get_photos.
Proof. intros w r s. apply change_none. Qed.

Lemma post_comment_populated_acts : acts_for_user post_comment_populated.
Proof.
  intros w r s.
  unfold post_comment_populated, try_catch, try_bind, req_user_id.
  branches; simplify_eq; try apply change_none;
    match goal with
    | H : findById _ s = Some _ |- _ => apply findById_lookup in H
    end;
    now eapply change_comment.
Qed.

Lemma post_comment_acts : acts_for_user post_comment.
Proof.
  intros w r s.
  unfold post_comment, try_catch, try_bind, req_user_id.
  branches; simplify_eq; try apply change_none;
    match goal with
    | H : findById _ s = Some _ |- _ => apply findById_lookup in H
    end;
    now eapply change_comment.
Qed.

Lemma put_description_acts : acts_for_user put_description.
Proof.
  intros w r s.
  unfold put_description, try_catch, try_bind, req_user_id.
  branches; simplify_eq; try apply change_none.
  match goal with
  | H : findById _ s = Some _ |- _ => apply findById_lookup in H
  end.
  match goal with
  | H : negb (string_eqb _ _) = false |- _ =>
      apply negb_false_iff, string_eqb_true in H
  end.
  now eapply change_description.
Qed.

Lemma post_like_acts : acts_for_user post_like.
Proof.
  intros w r s.
  unfold post_like, try_catch, try_bind, req_user_id.
  destruct (findById (param "id" r) s) as [[pid p] |] eqn:Hf;
    [| apply change_none].
  apply findById_lookup in Hf.
  destruct (user r) as [c |]; [| apply change_none].
  cbn [snd fmap option_fmap option_map].
  replace (if includes (Jwt.id c) (p_likes p)
           then set_likes (pull (Jwt.id c) (p_likes p)) p
           else set_likes (push (Jwt.id c) (p_likes p)) p)
    with (set_likes (if includes (Jwt.id c) (p_likes p)
                     then pull (Jwt.id c) (p_likes p)
                     else push (Jwt.id c) (p_likes p)) p)
    by now destruct (includes (Jwt.id c) (p_likes p)).
  now eapply change_like.
Qed.

Lemma comments_id_found cid cs cm :
  comments_id cid cs = Some cm -> cm ∈ cs /\ c_id cm = cid.
Proof.
  unfold comments_id. intros H. apply find_some in H as [Hin E].
  apply string_eqb_true in E. now rewrite list_elem_of_In.
Qed.

Lemma delete_comment_acts : acts_for_user delete_comment.
Proof.
  intros w r s.
  unfold delete_comment, try_catch, try_bind, req_user_id.
  branches; simplify_eq; try apply change_none.
  match goal with
  | H : findById _ s = Some _ |- _ => apply findById_lookup in H
  end.
  match goal with
  | H : comments_id _ _ = Some _ |- _ =>
      apply comments_id_found in H as [? _]
  end.
  match goal with
  | H : negb (string_eqb _ _) = false |- _ =>
      apply negb_false_iff, string_eqb_true in H
  end.
  now eapply change_uncomment.
Qed.

Lemma delete_photo_acts : acts_for_user delete_photo.
Proof.
  intros w r s.
  unfold delete_photo, try_catch, try_bind, req_user_id.
  branches; simplify_eq; try apply change_none.
  match goal with
  | H : findById _ s = Some _ |- _ => apply findById_lookup in H
  end.
  match goal with
  | H : negb (string_eqb _ _) = false |- _ =>
      apply negb_false_iff, string_eqb_true in H
  end.
  match goal with
  | H : photos s !! ?pid = Some ?p |- change (_ <$> Some ?c) _ _ _ =>
      apply (change_delete _ _ _ (Jwt.id c) pid p);
        [reflexivity | exact H | assumption]
  end.
Qed.

(** Every request changes the store in one of the eight ways, and in the
    name of the caller the gate has found. *)
Lemma server_change lib secret w req s :
  change (caller_of lib secret w req) w s (snd (server lib secret w req s)).
Proof.
  revert w req s.
  apply (dispatch_all
           (fun w req s out => change (caller_of lib secret w req) w s (snd out))).
  - intros. apply change_none.
  - unfold app.
    repeat apply Forall_cons_2; try apply Forall_nil_2;
      cbn [r_handler r_stack]; intros w req s ps.
    + apply signup_change.
    + apply login_change.
    + rewrite <- (caller_of_params lib secret w req ps).
      unfold caller_of. cbn [run_stack].
      destruct (authMiddleware lib secret w (set_params ps req));
        [apply change_none | apply upload_acts].
    + apply protected_change, get_photos_acts.
    + apply protected_change, post_comment_populated_acts.
    + apply protected_change, put_description_acts.
    + apply protected_change, post_like_acts.
    + apply protected_change, post_comment_acts.
    + apply protected_change, delete_comment_acts.
    + apply protected_change, delete_photo_acts.
Qed.

(** The store after a request, with the caller, as [change] relates them. *)
Ltac by_change lib secret w req s :=
  generalize (server_change lib secret w req s);
  generalize (snd (server lib secret w req s));
  generalize (caller_of lib secret w req);
  let caller := fresh "caller" in
  let s' := fresh "s'" in
  let Hc := fresh "Hc" in
  intros caller s' Hc; destruct Hc;
  unfold save_photo, deleteOne_photo; cbn [photos users set_photos set_users].

Section Whole.
Variable lib : Lib.
Variable secret : string.

(** X1. A request changes at most one photo: there is an id such that
    the photo under any other id is after the request what it was
    before. *)
Theorem request_touches_one_photo w req s :
  exists pid, forall q,
    q <> pid -> photos (snd (server lib secret w req s)) !! q = photos s !! q.
Proof.
  by_change lib secret w req s.
  - now exists "".
  - now exists "".
  - exists (fresh w). intros q Hq. now rewrite lookup_insert_ne.
  - exists pid. intros q Hq. now rewrite lookup_insert_ne.
  - exists pid. intros q Hq. now rewrite lookup_insert_ne.
  - exists pid. intros q Hq. now rewrite lookup_insert_ne.
  - exists pid. intros q Hq. now rewrite lookup_insert_ne.
  - exists pid. intros q Hq. now rewrite lookup_delete_ne.
Qed.

(** X2. No request changes the owner, the url or the creation date of a
    photo: a photo that is in the store before and after a request has
    them unchanged. *)
Theorem owner_url_and_date_are_fixed w req s pid p p' :
  photos s !! pid = Some p ->
  photos (snd (server lib secret w req s)) !! pid = Some p' ->
  p_user p' = p_user p /\ p_url p' = p_url p
  /\ p_createdAt p' = p_createdAt p.
Proof.
  revert p p'. by_change lib secret w req s; intros q q' Hq;
    try (rewrite lookup_insert; case_decide; simplify_eq);
    try (intros [_ Hq']%lookup_delete_Some);
    try intros Hq'; simplify_eq; try done.
Qed.

(** X3. A photo leaves the store only by a request of its owner: when a
    photo is there before a request and gone after it, the gate has let
    the request in for the owner of the photo. *)
Theorem only_owner_removes_photo w req s pid p :
  photos s !! pid = Some p ->
  photos (snd (server lib secret w req s)) !! pid = None ->
  caller_of lib secret w req = Some (p_user p).
Proof.
  revert p. by_change lib secret w req s; intros q Hq;
    try (rewrite lookup_insert; case_decide; simplify_eq);
    try intros Hq'; simplify_eq.
  destruct (decide (pid0 = pid)) as [-> | Hne].
  - now simplify_eq.
  - rewrite lookup_delete_ne in Hq' by done. congruence.
Qed.

(** X4. The description of a photo changes only by a request of its
    owner. *)
Theorem only_owner_changes_description w req s pid p p' :
  photos s !! pid = Some p ->
  photos (snd (server lib secret w req s)) !! pid = Some p' ->
  p_description p' <> p_description p ->
  caller_of lib secret w req = Some (p_user p).
Proof.
  revert p p'. by_change lib secret w req s; intros q q' Hq;
    try (rewrite lookup_insert; case_decide; simplify_eq);
    try (intros [_ Hq']%lookup_delete_Some);
    try intros Hq'; simplify_eq; try done.
Qed.

(** X5. A request adds or removes the like of its caller only: for any
    other user, being among the likes of a photo is the same before and
    after the request. *)
Theorem only_own_like_changes w req s pid p p' x :
  photos s !! pid = Some p ->
  photos (snd (server lib secret w req s)) !! pid = Some p' ->
  caller_of lib secret w req <> Some x ->
  (x ∈ p_likes p' <-> x ∈ p_likes p).
Proof.
  revert p p'. by_change lib secret w req s; intros q q' Hq;
    try (rewrite lookup_insert; case_decide; simplify_eq);
    try (intros [_ Hq']%lookup_delete_Some);
    try intros Hq'; simplify_eq; try done.
  intros Hx. cbn [p_likes set_likes].
  assert (Hne : x <> uid) by congruence.
  match goal with
  | |- context [includes uid ?l] => destruct (includes uid l)
  end.
  - rewrite elem_of_pull. tauto.
  - unfold push. rewrite elem_of_app, list_elem_of_singleton. tauto.
Qed.

(** X6. No comment appears under the name of somebody else: a comment
    that a photo has after a request and had not before is written by
    the caller the gate has let in, under the new id. *)
Theorem new_comment_bears_caller w req s pid p p' cm :
  photos s !! pid = Some p ->
  photos (snd (server lib secret w req s)) !! pid = Some p' ->
  cm ∈ p_comments p' -> cm ∉ p_comments p ->
  caller_of lib secret w req = Some (c_user cm) /\ c_id cm = fresh w.
Proof.
  revert p p'. by_change lib secret w req s; intros q q' Hq;
    try (rewrite lookup_insert; case_decide; simplify_eq);
    try (intros [_ Hq']%lookup_delete_Some);
    try intros Hq'; simplify_eq; try done;
    cbn [p_comments set_comments set_description set_likes].
  - intros [Hin | ->%list_elem_of_singleton]%elem_of_app Hout; done.
  - unfold comment_deleteOne. rewrite list_elem_of_In, filter_In.
    intros [Hin _] Hout. now rewrite <- list_elem_of_In in Hin.
Qed.

(** X7. A comment is removed only by a request of its author, in a photo
    whose comments have different ids: when a comment of the photo is
    gone after a request that kept the photo, the gate has let the request
    in for the author of that comment. *)
Theorem only_author_removes_comment w req s pid p p' cm :
  photos s !! pid = Some p ->
  photos (snd (server lib secret w req s)) !! pid = Some p' ->
  NoDup (c_id <$> p_comments p) ->
  cm ∈ p_comments p -> cm ∉ p_comments p' ->
  caller_of lib secret w req = Some (c_user cm).
Proof.
  revert p p'. by_change lib secret w req s; intros q q' Hq;
    try (rewrite lookup_insert; case_decide; simplify_eq);
    try (intros [_ Hq']%lookup_delete_Some);
    try intros Hq'; simplify_eq; try done;
    cbn [p_comments set_comments set_description set_likes];
    intros Hnd Hin Hout; try done.
  - exfalso. apply Hout. apply elem_of_app. now left.
  - match goal with
    | Hin0 : ?cm0 ∈ ?cs |- Some (c_user ?cm0) = _ =>
        destruct (decide (c_id cm = c_id cm0)) as [E | E];
          [assert (cm = cm0) as ->; [| reflexivity];
           apply list_elem_of_lookup in Hin as [i Hi];
           apply list_elem_of_lookup in Hin0 as [j Hj];
           assert (i = j) as ->;
           [apply (NoDup_lookup (c_id <$> cs) i j (c_id cm));
              [done | now rewrite list_lookup_fmap, Hi
                    | now rewrite list_lookup_fmap, Hj, E]
           | congruence]
          | exfalso; apply Hout; unfold comment_deleteOne;
            rewrite list_elem_of_In, filter_In, <- list_elem_of_In;
            split; [done |]; now apply negb_true_iff, string_eqb_false]
    end.
Qed.

(** X8. No photo appears under the name of somebody else: a photo that
    is in the store after a request and was not before is owned by the
    caller the gate has let in; it has the new id, the date of the
    request, no likes and no comments. *)
Theorem new_photo_bears_caller w req s pid p' :
  photos s !! pid = None ->
  photos (snd (server lib secret w req s)) !! pid = Some p' ->
  caller_of lib secret w req = Some (p_user p') /\ pid = fresh w
  /\ p_likes p' = [] /\ p_comments p' = []
  /\ p_createdAt p' = date_now w.
Proof.
  revert p'. by_change lib secret w req s; intros q' Hq;
    try (rewrite lookup_insert; case_decide; simplify_eq);
    try (intros [_ Hq']%lookup_delete_Some);
    try intros Hq'; simplify_eq; try done.
Qed.

(** X9. A request the gate has not let in changes no photo: whatever the
    route, the photos are after the request what they were before. *)
Theorem no_caller_no_photo_change w req s :
  caller_of lib secret w req = None ->
  photos (snd (server lib secret w req s)) = photos s.
Proof.
  by_change lib secret w req s; intros Hn; simplify_eq; reflexivity.
Qed.

(** X10. The users only grow, and by signup only: a request leaves the
    users as they are or appends one user, with the new id, and then
    leaves the photos as they are. *)
Theorem users_only_grow w req s :
  let s' := snd (server lib secret w req s) in
  users s' = users s
  \/ exists u, users s' = (users s ++ [u])%list /\ u_id u = fresh w
               /\ photos s' = photos s.
Proof.
  by_change lib secret w req s; try (now left).
  right. now exists u.
Qed.
End Whole.

(** ** All or nothing *)

(** The branches of a handler: those that answer 200, those that leave
    the store alone. *)
Ltac settle_branches :=
  branches; simplify_eq; cbn [fst snd]; intros Hst;
  first [reflexivity | exfalso; apply Hst; reflexivity].

Lemma signup_all_or_nothing lib : all_or_nothing (signup lib).
Proof.
  intros w r s.
  unfold signup, try_catch, try_bind, bcrypt_hash, save_user.
  settle_branches.
Qed.

Lemma login_all_or_nothing lib secret : all_or_nothing (login lib secret).
Proof.
  intros w r s. unfold login, try_catch, try_bind, bcrypt_compare.
  settle_branches.
Qed.

Lemma upload_all_or_nothing : all_or_nothing upload.
Proof.
  intros w r s.
  unfold upload, try_catch, try_bind, insert_photo, req_user_id.
  settle_branches.
Qed.

Lemma get_photos_all_or_nothing : all_or_nothing get_photos.
Proof. intros w r s _. reflexivity. Qed.

Lemma post_comment_populated_all_or_nothing :
  all_or_nothing post_comment_populated.
Proof.
  intros w r s.
  unfold post_comment_populated, try_catch, try_bind, req_user_id.
  destruct (findById (param "id" r) s) as [[pid p] |] eqn:Hf;
    [| intros _; reflexivity].
  destruct (user r) as [c |]; [| intros _; reflexivity].
  assert (Hid : param "id" r = Some pid).
  { unfold findById in Hf. destruct (param "id" r) as [i |]; [| discriminate].
    destruct (photos s !! i); [| discriminate]. now injection Hf as -> _. }
  rewrite Hid. unfold findById, save_photo. cbn [photos set_photos].
  rewrite lookup_insert_eq. cbn [fst snd]. intros Hst.
  exfalso. apply Hst. reflexivity.
Qed.

Lemma post_comment_all_or_nothing : all_or_nothing post_comment.
Proof.
  intros w r s. unfold post_comment, try_catch, try_bind, req_user_id.
  settle_branches.
Qed.

Lemma put_description_all_or_nothing : all_or_nothing put_description.
Proof.
  intros w r s. unfold put_description, try_catch, try_bind, req_user_id.
  settle_branches.
Qed.

Lemma post_like_all_or_nothing : all_or_nothing post_like.
Proof.
  intros w r s. unfold post_like, try_catch, try_bind, req_user_id.
  settle_branches.
Qed.

Lemma delete_comment_all_or_nothing : all_or_nothing delete_comment.
Proof.
  intros w r s. unfold delete_comment, try_catch, try_bind, req_user_id.
  settle_branches.
Qed.

Lemma delete_photo_all_or_nothing : all_or_nothing delete_photo.
Proof.
  intros w r s. unfold delete_photo, try_catch, try_bind, req_user_id.
  settle_branches.
Qed.

Lemma run_stack_all_or_nothing ms h :
  all_or_nothing h -> all_or_nothing (run_stack ms h).
Proof.
  intros Hh. induction ms as [|m ms IH]; intros w r s; simpl.
  - apply Hh.
  - destruct (m w r) as [res | r']; [intros _; reflexivity | apply IH].
Qed.

(** X11. A request that is not answered 200 has changed nothing: on every
    route, an answer with another status (400, 401, 403, 404, 500) comes
    with the store as it was before the request. *)
Theorem failed_request_changes_nothing lib secret w req s :
  status (fst (server lib secret w req s)) <> 200 ->
  snd (server lib secret w req s) = s.
Proof.
  revert w req s.
  apply (dispatch_all
           (fun w req s out => status (fst out) <> 200 -> snd out = s)).
  - intros w req s res _. reflexivity.
  - unfold app.
    repeat apply Forall_cons_2; try apply Forall_nil_2;
      cbn [r_handler r_stack]; intros w req s ps;
      apply run_stack_all_or_nothing.
    + apply signup_all_or_nothing.
    + apply login_all_or_nothing.
    + apply upload_all_or_nothing.
    + apply get_photos_all_or_nothing.
    + apply post_comment_populated_all_or_nothing.
    + apply put_description_all_or_nothing.
    + apply post_like_all_or_nothing.
    + apply post_comment_all_or_nothing.
    + apply delete_comment_all_or_nothing.
    + apply delete_photo_all_or_nothing.
Qed.

(** ** The router *)

(** A route that comes after a route with its method and its path is
    never taken. *)
Lemma dispatch_skips (r' : Route) (l2 l3 : list Route) w req s :
  (bool_decide (method req = r_method r') = false
   \/ match_path (r_path r') (path req) = None) ->
  dispatch (l2 ++ r' :: l3) w req s = dispatch (l2 ++ l3) w req s.
Proof.
  intros Hno. induction l2 as [|r l2 IH]; simpl.
  - destruct Hno as [-> | Hno]; [reflexivity |].
    rewrite Hno. now destruct (bool_decide (method req = r_method r')).
  - now rewrite IH.
Qed.

Lemma dispatch_shadowed (r r' : Route) (l1 l2 l3 : list Route) w req s :
  r_method r' = r_method r -> r_path r' = r_path r ->
  dispatch (l1 ++ r :: l2 ++ r' :: l3) w req s
  = dispatch (l1 ++ r :: l2 ++ l3) w req s.
Proof.
  intros Hm Hp. induction l1 as [|r1 l1 IH]; simpl.
  - destruct (bool_decide (method req = r_method r)) eqn:Em.
    + destruct (match_path (r_path r) (path req)) eqn:Ep; [reflexivity |].
      apply dispatch_skips. right. now rewrite Hp.
    + apply dispatch_skips. left. now rewrite Hm.
  - now rewrite IH.
Qed.

(** X12. The second registration of the comment endpoint is dead: with it
    taken out of the routes, the server answers every request as before
    and leaves the same store. *)
Theorem second_comment_route_is_dead lib secret w req s :
  server lib secret w req s = dispatch (app_once lib secret) w req s.
Proof.
  unfold server, app, app_once.
  apply (dispatch_shadowed
           {| r_method := POST;
              r_path := [Lit "photos"; Par "id"; Lit "comment"];
              r_stack := [authMiddleware lib secret];
              r_handler := post_comment_populated |}
           {| r_method := POST;
              r_path := [Lit "photos"; Par "id"; Lit "comment"];
              r_stack := [authMiddleware lib secret];
              r_handler := post_comment |}
           [_; _; _; _] [_; _] [_; _]); reflexivity.
Qed.

(** ** The list of the photos *)

Lemma newer_total : Total newer.
Proof. intros p q. unfold newer. lia. Qed.

Lemma newer_transitive : Transitive newer.
Proof. intros p q r. unfold newer. lia. Qed.

Lemma route_get_photos lib secret w req s :
  method req = GET -> path req = ["photos"] ->
  server lib secret w req s
  = run_stack [authMiddleware lib secret] get_photos w (set_params [] req) s.
Proof. destruct req; simpl; intros -> ->; reflexivity. Qed.


(** ** The comments of a photo *)

Lemma comments_id_none cid cs :
  comments_id cid cs = None <-> (forall cm, cm ∈ cs -> c_id cm <> cid).
Proof.
  unfold comments_id. split.
  - intros H cm Hin E. apply list_elem_of_In in Hin.
    apply (find_none _ _ H) in Hin. apply string_eqb_false in Hin. done.
  - intros H. destruct (List.find _ cs) as [cm |] eqn:E; [| reflexivity].
    apply comments_id_found in E as [Hin E]. now apply H in Hin.
Qed.

Lemma comment_deleteOne_gone cm cs :
  comments_id (c_id cm) (comment_deleteOne cm cs) = None.
Proof.
  apply comments_id_none. intros x. unfold comment_deleteOne.
  rewrite list_elem_of_In, filter_In.
  intros [_ E]. now apply negb_true_iff, string_eqb_false in E.
Qed.

Lemma comment_deleteOne_last cm cs :
  (forall x, x ∈ cs -> c_id x <> c_id cm) ->
  comment_deleteOne cm (cs ++ [cm])%list = cs.
Proof.
  intros Hnew. unfold comment_deleteOne. rewrite List.filter_app. simpl.
  rewrite string_eqb_refl. simpl. rewrite app_nil_r.
  induction cs as [|x cs IH]; [reflexivity |]. simpl.
  assert (E : string_eqb (c_id x) (c_id cm) = false).
  { apply string_eqb_false, Hnew, elem_of_cons. now left. }
  rewrite E. simpl. f_equal. apply IH.
  intros y Hy. apply Hnew, elem_of_cons. now right.
Qed.

Lemma set_comments_same p : set_comments (p_comments p) p = p.
Proof. now destruct p. Qed.

Lemma set_comments_twice cs cs' p :
  set_comments cs (set_comments cs' p) = set_comments cs p.
Proof. reflexivity. Qed.

Section Comments.
Variable lib : Lib.
Variable secret : string.

Lemma delete_comment_found w req s pid cid p c :
  photos s !! pid = Some p ->
  delete_comment w
    (set_params [("photoId", pid); ("commentId", cid)] (set_user c req)) s
  = match comments_id cid (p_comments p) with
    | None => (not_found "Comment", s)
    | Some cm =>
        if negb (string_eqb (c_user cm) (Jwt.id c)) then (not_allowed, s)
        else (res_json (JMessage true "Comment deleted"),
              save_photo pid
                (set_comments (comment_deleteOne cm (p_comments p)) p) s)
    end.
Proof.
  intros Hs. unfold delete_comment.
  change (param "photoId" _) with (Some pid).
  change (param "commentId" _) with (Some cid).
  rewrite (findById_some _ _ _ Hs). unfold try_catch, try_bind.
  destruct (comments_id cid (p_comments p)) as [cm |]; [| reflexivity].
  cbn [req_user_id user set_params set_user].
  now destruct (negb (string_eqb (c_user cm) (Jwt.id c))).
Qed.

Lemma post_comment_populated_found w req s pid p c :
  photos s !! pid = Some p ->
  post_comment_populated w (set_params [("id", pid)] (set_user c req)) s
  = let cm := {| c_id := fresh w; c_text := b_text (body req);
                 c_user := Jwt.id c; c_createdAt := date_now w |} in
    (res_json
       (JComments
          (populate_comment (users s) ["username"]
             <$> (comment_view <$> (p_comments p ++ [cm])%list))),
     save_photo pid (set_comments (p_comments p ++ [cm])%list p) s).
Proof.
  intros Hs. unfold post_comment_populated.
  change (param "id" _) with (Some pid).
  rewrite (findById_some _ _ _ Hs). unfold try_catch, try_bind.
  cbn [req_user_id user set_params set_user].
  unfold findById, save_photo. cbn [photos set_photos].
  rewrite lookup_insert_eq. reflexivity.
Qed.

(** X14. Deleting a comment, for a caller the gate lets in, the two ids
    of the route being object ids in their string form: 404 when no
    photo has the id, 404 when no comment of the photo has the comment id,
    403 when the comment found is of another user, each with the store as
    before; for the author the photo is stored without the comments of
    that id, the other comments in their order and the other fields as
    they were. *)
Theorem only_author_deletes_comment w req s pid cid c :
  authenticated lib secret w req c ->
  is_object_id pid = true -> is_object_id cid = true ->
  method req = DELETE -> path req = ["photos"; pid; "comment"; cid] ->
  (photos s !! pid = None ->
     server lib secret w req s
     = ({| status := 404; json := JMessage false "Photo not found" |}, s))
  /\ forall p,
       photos s !! pid = Some p ->
       ((forall cm, cm ∈ p_comments p -> c_id cm <> cid) ->
          server lib secret w req s
          = ({| status := 404; json := JMessage false "Comment not found" |},
             s))
       /\ (forall cm,
             comments_id cid (p_comments p) = Some cm ->
             c_user cm <> Jwt.id c ->
             server lib secret w req s
             = ({| status := 403; json := JMessage false "Not allowed" |}, s))
       /\ (forall cm,
             comments_id cid (p_comments p) = Some cm ->
             c_user cm = Jwt.id c ->
             server lib secret w req s
             = ({| status := 200; json := JMessage true "Comment deleted" |},
                {| users := users s;
                   photos :=
                     <[pid := {| p_url := p_url p;
                                 p_description := p_description p;
                                 p_user := p_user p; p_likes := p_likes p;
                                 p_comments :=
                                   List.filter
                                     (fun x => negb (string_eqb (c_id x) cid))
                                     (p_comments p);
                                 p_createdAt := p_createdAt p |}]>
                       (photos s) |})).
Proof.
  intros Ha _ _ Hm Hp.
  rewrite (route_delete_comment _ _ _ _ _ _ _ Hm Hp).
  rewrite (run_protected _ _ _ _ _ _ _ _ Ha).
  split.
  - intros Hn. unfold delete_comment.
    change (param "photoId" _) with (Some pid).
    now rewrite (findById_none _ _ Hn).
  - intros p Hs. rewrite (delete_comment_found _ _ _ _ _ _ _ Hs).
    split_and!.
    + intros Hno. apply comments_id_none in Hno. now rewrite Hno.
    + intros cm Hcm Hne. rewrite Hcm.
      apply string_eqb_false in Hne. now rewrite Hne.
    + intros cm Hcm He. rewrite Hcm.
      apply string_eqb_true in He. rewrite He. cbn [negb].
      apply comments_id_found in Hcm as [_ <-]. reflexivity.
Qed.


(** X16. A comment is appended: for a caller the gate lets in, the id of
    the route being an object id in its string form, and a photo that is
    there, the endpoint stores the photo with its comments followed by
    the new one (the text of the body, the caller as author, the new id,
    the date of the request), its other fields as they were, and answers
    with all the comments in that order, their authors populated; when no
    photo has the id the answer is 404 and nothing changes. *)
Theorem comment_is_appended w req s pid c :
  authenticated lib secret w req c ->
  is_object_id pid = true ->
  method req = POST -> path req = ["photos"; pid; "comment"] ->
  (photos s !! pid = None ->
     server lib secret w req s
     = ({| status := 404; json := JMessage false "Photo not found" |}, s))
  /\ forall p,
       photos s !! pid = Some p ->
       let cs := (p_comments p
                  ++ [{| c_id := fresh w; c_text := b_text (body req);
                         c_user := Jwt.id c;
                         c_createdAt := date_now w |}])%list in
       server lib secret w req s
       = ({| status := 200;
             json := JComments
                       (populate_comment (users s) ["username"]
                          <$> (comment_view <$> cs)) |},
          {| users := users s;
             photos :=
               <[pid := {| p_url := p_url p;
                           p_description := p_description p;
                           p_user := p_user p; p_likes := p_likes p;
                           p_comments := cs;
                           p_createdAt := p_createdAt p |}]>
                 (photos s) |}).
Proof.
  intros Ha _ Hm Hp.
  rewrite (route_comment _ _ _ _ _ _ Hm Hp).
  rewrite (run_protected _ _ _ _ _ _ _ _ Ha).
  split.
  - intros Hn. unfold post_comment_populated.
    change (param "id" _) with (Some pid).
    now rewrite (findById_none _ _ Hn).
  - intros p Hs. now rewrite (post_comment_populated_found _ _ _ _ _ _ Hs).
Qed.
(** X17. Commenting and then deleting that comment gives back the store:
    when the new comment id is not the id of a comment of the photo, the
    author's request to delete the comment under the new id is answered
    200 and the store is what it was before the comment. *)
Theorem comment_then_delete_restores w1 w2 req1 req2 s pid p c1 c2 :
  authenticated lib secret w1 req1 c1 ->
  authenticated lib secret w2 req2 c2 ->
  Jwt.id c1 = Jwt.id c2 ->
  method req1 = POST -> path req1 = ["photos"; pid; "comment"] ->
  method req2 = DELETE ->
  path req2 = ["photos"; pid; "comment"; fresh w1] ->
  photos s !! pid = Some p ->
  (forall cm, cm ∈ p_comments p -> c_id cm <> fresh w1) ->
  let s1 := snd (server lib secret w1 req1 s) in
  server lib secret w2 req2 s1
  = (res_json (JMessage true "Comment deleted"), s).
Proof.
  intros Ha1 Ha2 Hc Hm1 Hp1 Hm2 Hp2 Hs Hnew s1. subst s1.
  rewrite (route_comment _ _ _ _ _ _ Hm1 Hp1).
  rewrite (run_protected _ _ _ _ _ _ _ _ Ha1).
  rewrite (post_comment_populated_found _ _ _ _ _ _ Hs).
  cbv zeta. cbn [snd].
  set (cm := {| c_id := fresh w1 |}).
  rewrite (route_delete_comment _ _ _ _ _ _ _ Hm2 Hp2).
  rewrite (run_protected _ _ _ _ _ _ _ _ Ha2).
  erewrite delete_comment_found;
    [| unfold save_photo; cbn [photos set_photos]; apply lookup_insert_eq].
  cbn [p_comments set_comments].
  assert (Hfind : comments_id (fresh w1) (p_comments p ++ [cm])%list = Some cm).
  { unfold comments_id. apply find_app_absent.
    - apply not_true_is_false. intros (x & Hx & E)%existsb_exists.
      apply string_eqb_true in E. apply list_elem_of_In in Hx.
      now apply Hnew in Hx.
    - apply string_eqb_refl. }
  rewrite Hfind. cbn [c_user cm]. rewrite Hc, string_eqb_refl. cbn [negb].
  f_equal. rewrite comment_deleteOne_last by exact Hnew.
  rewrite set_comments_twice, set_comments_same.
  unfold save_photo, set_photos. cbn [photos users].
  rewrite insert_insert_eq, (insert_id _ _ _ Hs).
  now destruct s.
Qed.
End Comments.

(** ** Accounts and sessions, end to end *)

Section EndToEnd.
Variable lib : Lib.
Variable secret : string.


Hypothesis contract : jwt_contract lib.
Hypothesis configured : secret <> "".

(** X19. The token of a login names its user to the whole server for two
    hours: a request that carries it as its authorization header is, on the
    token clock, taken for that user before the 7200 seconds are over and
    for nobody from then on. *)
Theorem issued_token_names_caller uid now token w req :
  jwt_sign lib uid secret (Jwt.Hours 2) now = inr token ->
  authorization req = Some token ->
  (seconds w < now + 7200 -> caller_of lib secret w req = Some uid)
  /\ (now + 7200 <= seconds w -> caller_of lib secret w req = None).
Proof.
  intros Hsign Hauth. unfold caller_of.
  rewrite (auth_issued lib secret contract configured _ _ _ _ w req
             Hsign Hauth).
  cbv zeta. cbn [Jwt.exp Jwt.timespan_seconds].
  change (2 * 3600) with 7200.
  split; intros Ht.
  - now rewrite (proj2 (Z.leb_gt _ _) Ht).
  - now rewrite (proj2 (Z.leb_le _ _) Ht).
Qed.
End EndToEnd.

(** ** The properties of the whole server on the sample *)

(** The user [b] takes back the like: the photo is still of the user
    [a]. *)
Lemma owner_url_and_date_are_fixed_witness :
  let p' := set_likes [] Sample.photo1 in
  p_user p' = "a1" /\ p_url p' = p_url Sample.photo1
  /\ p_createdAt p' = 1000.
Proof.
  intros p'.
  apply (owner_url_and_date_are_fixed Sample.lib Sample.secret Sample.later
           (Sample.as_user "b2" POST ["photos"; "p1"; "like"] Sample.no_body)
           Sample.store1 "p1" Sample.photo1 p').
  - vm_compute. reflexivity.
  - vm_compute. reflexivity.
Defined.

(** The photo goes by the request of the user [a], who owns it. *)
Lemma only_owner_removes_photo_witness :
  caller_of Sample.lib Sample.secret Sample.later
    (Sample.as_user "a1" DELETE ["photos"; "p1"] Sample.no_body)
  = Some "a1".
Proof.
  apply (only_owner_removes_photo Sample.lib Sample.secret Sample.later
           (Sample.as_user "a1" DELETE ["photos"; "p1"] Sample.no_body)
           Sample.store1 "p1" Sample.photo1).
  - vm_compute. reflexivity.
  - vm_compute. reflexivity.
Defined.

Lemma only_owner_changes_description_witness :
  caller_of Sample.lib Sample.secret Sample.later
    (Sample.as_user "a1" PUT ["photos"; "p1"; "description"]
       (Sample.describe "new"))
  = Some "a1".
Proof.
  apply (only_owner_changes_description Sample.lib Sample.secret Sample.later
           (Sample.as_user "a1" PUT ["photos"; "p1"; "description"]
              (Sample.describe "new"))
           Sample.store1 "p1" Sample.photo1
           (set_description (Some "new") Sample.photo1)).
  - vm_compute. reflexivity.
  - vm_compute. reflexivity.
  - vm_compute. discriminate.
Defined.

(** The user [b] toggles: the like of the user [a] is neither added nor
    removed. *)
Lemma only_own_like_changes_witness :
  "a1" ∈ p_likes (set_likes [] Sample.photo1)
  <-> "a1" ∈ p_likes Sample.photo1.
Proof.
  apply (only_own_like_changes Sample.lib Sample.secret Sample.later
           (Sample.as_user "b2" POST ["photos"; "p1"; "like"] Sample.no_body)
           Sample.store1 "p1" Sample.photo1 (set_likes [] Sample.photo1)
           "a1").
  - vm_compute. reflexivity.
  - vm_compute. reflexivity.
  - vm_compute. discriminate.
Defined.

Lemma new_comment_bears_caller_witness :
  caller_of Sample.lib Sample.secret Sample.later
    (Sample.as_user "a1" POST ["photos"; "p1"; "comment"]
       (Sample.say "hello"))
  = Some "a1".
Proof.
  apply (new_comment_bears_caller Sample.lib Sample.secret Sample.later
           (Sample.as_user "a1" POST ["photos"; "p1"; "comment"]
              (Sample.say "hello"))
           Sample.store1 "p1" Sample.photo1
           (set_comments
              [Sample.comment1;
               {| c_id := "n1"; c_text := Some "hello"; c_user := "a1";
                  c_createdAt := 6000 |}]
              Sample.photo1)
           {| c_id := "n1"; c_text := Some "hello"; c_user := "a1";
              c_createdAt := 6000 |}).
  - vm_compute. reflexivity.
  - vm_compute. reflexivity.
  - cbn [p_comments set_comments]. apply elem_of_cons. right.
    apply elem_of_cons. now left.
  - cbn [p_comments Sample.photo1].
    intros [E | []%elem_of_nil]%elem_of_cons. discriminate E.
Defined.

(** The comment [c1] goes by the request of the user [b], who wrote it. *)
Lemma only_author_removes_comment_witness :
  caller_of Sample.lib Sample.secret Sample.later
    (Sample.as_user "b2" DELETE ["photos"; "p1"; "comment"; "c1"]
       Sample.no_body)
  = Some "b2".
Proof.
  apply (only_author_removes_comment Sample.lib Sample.secret Sample.later
           (Sample.as_user "b2" DELETE ["photos"; "p1"; "comment"; "c1"]
              Sample.no_body)
           Sample.store1 "p1" Sample.photo1
           (set_comments [] Sample.photo1) Sample.comment1).
  - vm_compute. reflexivity.
  - vm_compute. reflexivity.
  - cbn [p_comments Sample.photo1 fmap list_fmap]. apply NoDup_singleton.
  - cbn [p_comments Sample.photo1]. apply elem_of_cons. now left.
  - cbn [p_comments set_comments]. apply not_elem_of_nil.
Defined.

(** The user [a] uploads: the new photo is of the user [a]. *)
Lemma new_photo_bears_caller_witness :
  caller_of Sample.lib Sample.secret Sample.later
    (Sample.with_file "2.png"
       (Sample.as_user "a1" POST ["upload"] (Sample.describe "second")))
  = Some "a1".
Proof.
  apply (new_photo_bears_caller Sample.lib Sample.secret Sample.later
           (Sample.with_file "2.png"
              (Sample.as_user "a1" POST ["upload"] (Sample.describe "second")))
           Sample.store1 "n1"
           {| p_url := "https://res.cloudinary.com/gallery/2.png";
              p_description := Some "second"; p_user := "a1";
              p_likes := []; p_comments := []; p_createdAt := 6000 |}).
  - vm_compute. reflexivity.
  - vm_compute. reflexivity.
Defined.

(** A request to delete the photo without a token. *)
Lemma no_caller_no_photo_change_witness :
  photos (snd (server Sample.lib Sample.secret Sample.later
                 (Sample.request DELETE ["photos"; "p1"] None Sample.no_body)
                 Sample.store1))
  = photos Sample.store1.
Proof.
  apply (no_caller_no_photo_change Sample.lib Sample.secret Sample.later
           (Sample.request DELETE ["photos"; "p1"] None Sample.no_body)
           Sample.store1).
  vm_compute. reflexivity.
Defined.

(** The user [b] may not describe the photo: 403, and the store is as it
    was. *)
Lemma failed_request_changes_nothing_witness :
  snd (server Sample.lib Sample.secret Sample.later
         (Sample.as_user "b2" PUT ["photos"; "p1"; "description"]
            (Sample.describe "mine"))
         Sample.store1)
  = Sample.store1.
Proof.
  apply (failed_request_changes_nothing Sample.lib Sample.secret Sample.later
           (Sample.as_user "b2" PUT ["photos"; "p1"; "description"]
              (Sample.describe "mine"))
           Sample.store1).
  vm_compute. discriminate.
Defined.


(** The user [ben] deletes his comment, the first of the two on the
    first photo: the comment of [ann] is the one that stays; [ann] may
    not delete the comment of [ben]. *)
Lemma only_author_deletes_comment_witness :
  let del uid := Gallery.as_user uid DELETE
                   ["photos"; Gallery.photo1_id; "comment";
                    Gallery.comment1_id] Sample.no_body in
  let run uid := server Sample.lib Sample.secret Gallery.now (del uid)
                   Gallery.store in
  p_comments <$> (photos (snd (run Gallery.ben_id)) !! Gallery.photo1_id)
  = Some [Gallery.comment2]
  /\ run Gallery.ann_id
     = ({| status := 403; json := JMessage false "Not allowed" |},
        Gallery.store).
Proof.
  intros del run. subst run del. cbv beta. split.
  - rewrite (proj2 (proj2 (proj2 (only_author_deletes_comment
               Sample.lib Sample.secret Gallery.now
               (Gallery.as_user Gallery.ben_id DELETE
                  ["photos"; Gallery.photo1_id; "comment";
                   Gallery.comment1_id] Sample.no_body)
               Gallery.store Gallery.photo1_id Gallery.comment1_id
               (Sample.claims_of Gallery.ben_id)
               ltac:(exists (Sample.token_of Gallery.ben_id 5000);
                     split; [reflexivity | vm_compute; reflexivity])
               ltac:(vm_compute; reflexivity) ltac:(vm_compute; reflexivity)
               eq_refl eq_refl)
             Gallery.photo1 ltac:(vm_compute; reflexivity)))
             Gallery.comment1
             ltac:(vm_compute; reflexivity) eq_refl).
    vm_compute. reflexivity.
  - apply (proj1 (proj2 (proj2 (only_author_deletes_comment
             Sample.lib Sample.secret Gallery.now
             (Gallery.as_user Gallery.ann_id DELETE
                ["photos"; Gallery.photo1_id; "comment";
                 Gallery.comment1_id] Sample.no_body)
             Gallery.store Gallery.photo1_id Gallery.comment1_id
             (Sample.claims_of Gallery.ann_id)
             ltac:(exists (Sample.token_of Gallery.ann_id 5000);
                     split; [reflexivity | vm_compute; reflexivity])
             ltac:(vm_compute; reflexivity) ltac:(vm_compute; reflexivity)
             eq_refl eq_refl)
           Gallery.photo1 ltac:(vm_compute; reflexivity)))
           Gallery.comment1).
    + vm_compute. reflexivity.
    + vm_compute. discriminate.
Defined.


(** The user [ben] comments on the first photo: his comment comes after
    the two that were there, and the answer shows the three with their
    authors; on a photo that is not there the answer is 404. *)
Lemma comment_is_appended_witness :
  let post pid := Gallery.as_user Gallery.ben_id POST
                    ["photos"; pid; "comment"] (Sample.say "wow") in
  let run pid := server Sample.lib Sample.secret Gallery.now (post pid)
                   Gallery.store in
  let added := {| c_id := Gallery.new_id; c_text := Some "wow";
                  c_user := Gallery.ben_id; c_createdAt := 6000 |} in
  p_comments <$> (photos (snd (run Gallery.photo1_id)) !! Gallery.photo1_id)
  = Some [Gallery.comment1; Gallery.comment2; added]
  /\ json (fst (run Gallery.photo1_id))
     = JComments
         [ {| cv_id := Gallery.comment1_id; cv_text := Some "nice";
              cv_user := Doc Gallery.ben_id [("username", "ben")];
              cv_createdAt := 2100 |};
           {| cv_id := Gallery.comment2_id; cv_text := Some "thanks";
              cv_user := Doc Gallery.ann_id [("username", "ann")];
              cv_createdAt := 2200 |};
           {| cv_id := Gallery.new_id; cv_text := Some "wow";
              cv_user := Doc Gallery.ben_id [("username", "ben")];
              cv_createdAt := 6000 |} ]
  /\ run Gallery.absent_id
     = ({| status := 404; json := JMessage false "Photo not found" |},
        Gallery.store).
Proof.
  intros post run added. subst run post added. cbv beta.
  rewrite (proj2 (comment_is_appended Sample.lib Sample.secret Gallery.now
             (Gallery.as_user Gallery.ben_id POST
                ["photos"; Gallery.photo1_id; "comment"] (Sample.say "wow"))
             Gallery.store Gallery.photo1_id
             (Sample.claims_of Gallery.ben_id)
             ltac:(exists (Sample.token_of Gallery.ben_id 5000);
                     split; [reflexivity | vm_compute; reflexivity])
             ltac:(vm_compute; reflexivity) eq_refl eq_refl)
           Gallery.photo1 ltac:(vm_compute; reflexivity)).
  split; [vm_compute; reflexivity |].
  split; [vm_compute; reflexivity |].
  apply (proj1 (comment_is_appended Sample.lib Sample.secret Gallery.now
                  (Gallery.as_user Gallery.ben_id POST
                     ["photos"; Gallery.absent_id; "comment"]
                     (Sample.say "wow"))
                  Gallery.store Gallery.absent_id
                  (Sample.claims_of Gallery.ben_id)
                  ltac:(exists (Sample.token_of Gallery.ben_id 5000);
                     split; [reflexivity | vm_compute; reflexivity])
                  ltac:(vm_compute; reflexivity) eq_refl eq_refl)).
  vm_compute. reflexivity.
Defined.

(** The user [a] comments and deletes the comment: the sample store
    again. *)
Lemma comment_then_delete_restores_witness :
  let s1 := snd (server Sample.lib Sample.secret Sample.later
                   (Sample.as_user "a1" POST ["photos"; "p1"; "comment"]
                      (Sample.say "hello"))
                   Sample.store1) in
  server Sample.lib Sample.secret Sample.later
    (Sample.as_user "a1" DELETE ["photos"; "p1"; "comment"; "n1"]
       Sample.no_body) s1
  = (res_json (JMessage true "Comment deleted"), Sample.store1).
Proof.
  apply (comment_then_delete_restores Sample.lib Sample.secret
           Sample.later Sample.later
           (Sample.as_user "a1" POST ["photos"; "p1"; "comment"]
              (Sample.say "hello"))
           (Sample.as_user "a1" DELETE ["photos"; "p1"; "comment"; "n1"]
              Sample.no_body)
           Sample.store1 "p1" Sample.photo1
           (Sample.claims_of "a1") (Sample.claims_of "a1")
           (sample_authenticated "a1" _ _ _ (or_introl eq_refl))
           (sample_authenticated "a1" _ _ _ (or_introl eq_refl))
           eq_refl eq_refl eq_refl eq_refl eq_refl
           ltac:(vm_compute; reflexivity)).
  cbn [p_comments Sample.photo1].
  intros cm [-> | []%elem_of_nil]%elem_of_cons. vm_compute. discriminate.
Defined.


(** The token of the user [a], issued at clock 5000, at clock 6000. *)
Lemma issued_token_names_caller_witness :
  caller_of Sample.lib Sample.secret Sample.later
    (Sample.as_user "a1" GET ["photos"] Sample.no_body)
  = Some "a1".
Proof.
  apply (proj1 (issued_token_names_caller Sample.lib Sample.secret
                  sample_contract sample_configured "a1" 5
                  (Sample.token_of "a1" 5000) Sample.later
                  (Sample.as_user "a1" GET ["photos"] Sample.no_body)
                  ltac:(vm_compute; reflexivity) eq_refl)).
  vm_compute. reflexivity.
Defined.
